(** * RISIB recycling-rewards backend: category ladder, redemption and scanning

    A shallow embedding of [backend/server.py].  Python [int] is [Z], [str] is
    [string] (a byte string: the accented letters of the Spanish messages are
    their UTF-8 bytes), [float] is the binary64 [float] of the kernel, a
    MongoDB collection is the list of its documents in insertion order, and a
    request handler is a function of the database it runs against together
    with the values it draws from its environment (clock, random generator,
    freshly generated document identifiers). *)

From Stdlib Require Import ZArith NArith List String Ascii Bool Lia Floats.
Import ListNotations.

Open Scope string_scope.
Open Scope Z_scope.

(** ** Python built-ins used by the handlers *)

(** [list.index(x)]: position of the first occurrence, [None] standing for
    the [ValueError] Python raises when there is none. *)
Fixpoint index (x : string) (l : list string) : option nat :=
  match l with
  | [] => None
  | y :: l' => if String.eqb y x then Some O
               else option_map S (index x l')
  end.

(** [x in l] on a list of strings. *)
Definition contains (x : string) (l : list string) : bool :=
  existsb (String.eqb x) l.

(** [dict.get(key, default)] on a dictionary given by its items. *)
Fixpoint dict_get {V : Type} (d : list (string * V)) (key : string) (default : V) : V :=
  match d with
  | [] => default
  | (k, v) :: d' => if String.eqb k key then v else dict_get d' key default
  end.

(** [float(n)] for an integer [n]: the nearest binary64 value (exact whenever
    [|n| <= 2^53]).  Beyond the binary64 range Python raises [OverflowError]
    where this yields an infinity; no integer of the handlers gets there. *)
Definition float_of_int (n : Z) : float :=
  match n with
  | Z0 => 0%float
  | Zpos m => SF2Prim (SpecFloat.binary_round prec emax false m 0)
  | Zneg m => SF2Prim (SpecFloat.binary_round prec emax true m 0)
  end.

(** The float literal [0.1] of the source: the binary64 value nearest to one
    tenth. *)
Definition one_tenth : float := 0x1.999999999999ap-4%float.

(** ** Category logic *)

Definition get_category_from_points (points : Z) : string :=
  if points >=? 1000 then "Black"
  else if points >=? 600 then "Diamante"
  else if points >=? 300 then "Oro"
  else if points >=? 100 then "Plata"
  else "Clásico".

(** The dictionary returned under the key ["nextCategory"]. *)
Record NextCategory := mkNextCategory {
  nc_name : string;
  nc_pointsNeeded : Z;
  nc_currentPoints : Z;
  nc_totalPoints : Z;
  nc_progress : float
}.

Definition thresholds : list (Z * string) :=
  [(100, "Plata"); (300, "Oro"); (600, "Diamante"); (1000, "Black")].

(** The [for threshold, category in thresholds] loop: the first pair whose
    threshold is above [points] is returned, [None] when the loop runs out.
    [points / threshold] is Python's true division of two integers. *)
Fixpoint next_category_loop (points : Z) (ths : list (Z * string)) : option NextCategory :=
  match ths with
  | [] => None
  | (threshold, category) :: ths' =>
      if points <? threshold then
        Some {| nc_name := category;
                nc_pointsNeeded := threshold - points;
                nc_currentPoints := points;
                nc_totalPoints := threshold;
                nc_progress := (float_of_int points / float_of_int threshold * 100)%float |}
      else next_category_loop points ths'
  end.

Definition get_next_category_info (points : Z) : option NextCategory :=
  next_category_loop points thresholds.

Definition categories : list (string * Z) :=
  [("Clásico", 0); ("Plata", 100); ("Oro", 300); ("Diamante", 600); ("Black", 1000)].

Definition get_category_requirements (category : string) : Z :=
  dict_get categories category 0.

(** The ladder as the handlers spell it out, lowest tier first. *)
Definition cat_order : list string :=
  ["Clásico"; "Plata"; "Oro"; "Diamante"; "Black"].

(** Position on the ladder, and the order of the tiers it induces. *)
Definition tier_index (category : string) : option nat := index category cat_order.

Definition tier_le (c d : string) : Prop :=
  match tier_index c, tier_index d with
  | Some i, Some j => (i <= j)%nat
  | _, _ => False
  end.

(** ** Strings

    The handlers only apply these to e-mail addresses; the model follows
    Python on ASCII text. *)

Definition is_lower (a : ascii) : bool :=
  let n := nat_of_ascii a in (97 <=? n)%nat && (n <=? 122)%nat.

Definition is_upper (a : ascii) : bool :=
  let n := nat_of_ascii a in (65 <=? n)%nat && (n <=? 90)%nat.

Definition is_digit (a : ascii) : bool :=
  let n := nat_of_ascii a in (48 <=? n)%nat && (n <=? 57)%nat.

Definition to_upper (a : ascii) : ascii :=
  if is_lower a then ascii_of_nat (nat_of_ascii a - 32) else a.

Definition to_lower (a : ascii) : ascii :=
  if is_upper a then ascii_of_nat (nat_of_ascii a + 32) else a.

Fixpoint string_map (f : ascii -> ascii) (s : string) : string :=
  match s with
  | EmptyString => EmptyString
  | String a s' => String (f a) (string_map f s')
  end.

Fixpoint string_forallb (f : ascii -> bool) (s : string) : bool :=
  match s with
  | EmptyString => true
  | String a s' => f a && string_forallb f s'
  end.

(** [s.split(sep)[0]] for a one-character separator. *)
Fixpoint split_head (sep : ascii) (s : string) : string :=
  match s with
  | EmptyString => EmptyString
  | String a s' => if Ascii.eqb a sep then EmptyString else String a (split_head sep s')
  end.

(** [s.title()]: a letter that follows a letter is lowered, any other letter
    is raised. *)
Fixpoint title_from (after_letter : bool) (s : string) : string :=
  match s with
  | EmptyString => EmptyString
  | String a s' =>
      let cased := is_lower a || is_upper a in
      String (if cased then (if after_letter then to_lower a else to_upper a) else a)
             (title_from cased s')
  end.

Definition title (s : string) : string := title_from false s.

(** Decimal digits of a non-negative integer, as [str(n)] prints them. *)
Fixpoint digits_of (fuel : nat) (n : Z) (acc : string) : string :=
  match fuel with
  | O => acc
  | S fuel' =>
      let acc' := String (ascii_of_nat (48 + Z.to_nat (n mod 10))) acc in
      if n / 10 =? 0 then acc' else digits_of fuel' (n / 10) acc'
  end.

Definition str_of_nonneg (n : Z) : string :=
  digits_of (S (Z.to_nat (Z.log2 n))) n EmptyString.

(** ** Environment of a request

    What a handler reads from outside the database while it runs, each
    indexed by the order of the calls within the request: the clock
    ([datetime.utcnow()]), the raw draws of the random generator, and the
    document identifiers the driver generates for inserted documents. *)

Definition datetime := Z.

(** A [bson.ObjectId], kept as its canonical text: 24 lower-case hexadecimal
    digits. [str(oid)] is [oid_hex oid]. *)
Record ObjectId_t := mkObjectId { oid_hex : string }.

Definition ObjectId_eqb (a b : ObjectId_t) : bool := String.eqb (oid_hex a) (oid_hex b).

Record Env := mkEnv {
  utcnow : nat -> datetime;
  getrandbits : nat -> N;
  new_ObjectId : nat -> ObjectId_t
}.

(** [random.randint(a, b)] is [a + randbelow(b - a + 1)]; the generator's raw
    draw is reduced to the width of the interval. *)
Definition randint (a b : Z) (raw : N) : Z := a + Z.of_N raw mod (b - a + 1).

(** ** Exceptions *)

Inductive pyerror :=
| InvalidId (oid : string)
| ValueError (x : string)
| IndexError
| TypeError.

Inductive exn :=
| HTTPException (status_code : Z) (detail : string)
| PyError (err : pyerror).

(** [str(e)]: the message of the exception (the offending value is quoted the
    way [repr] quotes a plain string). *)
Definition str_error (err : pyerror) : string :=
  match err with
  | InvalidId oid =>
      "'" ++ oid ++ "' is not a valid ObjectId, it must be a 12-byte input or a 24-character hex string"
  | ValueError x => "'" ++ x ++ "' is not in list"
  | IndexError => "string index out of range"
  | TypeError => "'NoneType' object is not subscriptable"
  end%string.

Definition is_hex (a : ascii) : bool :=
  let n := nat_of_ascii a in
  is_digit a || ((97 <=? n)%nat && (n <=? 102)%nat) || ((65 <=? n)%nat && (n <=? 70)%nat).

(** [ObjectId(s)] on a string: 24 hexadecimal digits of either case, or
    [InvalidId]. *)
Definition ObjectId (s : string) : exn + ObjectId_t :=
  if (String.length s =? 24)%nat && string_forallb is_hex s
  then inr (mkObjectId (string_map to_lower s))
  else inl (PyError (InvalidId s)).

(** ** Documents

    Every stored document is the [.dict()] of its model, so all the fields of
    the model are present: [user.get("recycledKg", 0.0)] reads the field. *)

Record PointsHistoryItem := mkPointsHistoryItem {
  h_date : datetime;
  h_points : Z;
  h_description : string;
  h_type : string
}.

Record User := mkUser {
  u_studentId : string;
  u_name : string;
  u_email : string;
  u_password : string;
  u_avatar : string;
  u_points : Z;
  u_category : string;
  u_pointsHistory : list PointsHistoryItem;
  u_recycledKg : float;
  u_createdAt : datetime
}.

Record UserLogin := mkUserLogin {
  l_email : string;
  l_password : string
}.

Record Location := mkLocation { loc_x : Z; loc_y : Z }.

Record Container := mkContainer {
  c_name : string;
  c_location : Location;
  c_status : string;
  c_address : string;
  c_lastMaintenance : datetime;
  c_type : string
}.

Record Reward := mkReward {
  r_title : string;
  r_description : string;
  r_pointsCost : Z;
  r_category : string;
  r_available : bool;
  r_image : string;
  r_location : string
}.

Record QRScan := mkQRScan {
  s_userId : string;
  s_containerId : string;
  s_pointsEarned : Z;
  s_timestamp : datetime
}.

Record ScanQRRequest := mkScanQRRequest {
  sq_userId : string;
  sq_qrCode : string
}.

Record RedeemRequest := mkRedeemRequest {
  rq_userId : string;
  rq_rewardId : string
}.

(** ** The database

    A collection lists its documents, each with its [_id], in insertion
    order. *)

Definition collection (A : Type) : Type := list (ObjectId_t * A).

Record DB := mkDB {
  users : collection User;
  containers : collection Container;
  rewards : collection Reward;
  scans : collection QRScan
}.

Definition empty_db : DB := mkDB [] [] [] [].

Definition with_users (db : DB) (us : collection User) : DB :=
  mkDB us (containers db) (rewards db) (scans db).

Definition with_containers (db : DB) (cs : collection Container) : DB :=
  mkDB (users db) cs (rewards db) (scans db).

Definition with_rewards (db : DB) (rs : collection Reward) : DB :=
  mkDB (users db) (containers db) rs (scans db).

Definition with_scans (db : DB) (ss : collection QRScan) : DB :=
  mkDB (users db) (containers db) (rewards db) ss.

(** Selector [{"_id": oid}]. *)
Definition by_id {A : Type} (oid : ObjectId_t) (d : ObjectId_t * A) : bool :=
  ObjectId_eqb (fst d) oid.

(** [update_one]: the first document the selector matches is rewritten, the
    others are left as they are. *)
Fixpoint update_first {A : Type} (sel : A -> bool) (f : A -> A) (l : list A) : list A :=
  match l with
  | [] => []
  | d :: l' => if sel d then f d :: l' else d :: update_first sel f l'
  end.

Definition on_doc {A : Type} (f : A -> A) (d : ObjectId_t * A) : ObjectId_t * A :=
  (fst d, f (snd d)).

(** The update operators the handlers use on a user document. *)
Definition set_points (v : Z) (u : User) : User :=
  mkUser (u_studentId u) (u_name u) (u_email u) (u_password u) (u_avatar u)
         v (u_category u) (u_pointsHistory u) (u_recycledKg u) (u_createdAt u).

Definition set_category (v : string) (u : User) : User :=
  mkUser (u_studentId u) (u_name u) (u_email u) (u_password u) (u_avatar u)
         (u_points u) v (u_pointsHistory u) (u_recycledKg u) (u_createdAt u).

Definition set_recycledKg (v : float) (u : User) : User :=
  mkUser (u_studentId u) (u_name u) (u_email u) (u_password u) (u_avatar u)
         (u_points u) (u_category u) (u_pointsHistory u) v (u_createdAt u).

Definition push_pointsHistory (item : PointsHistoryItem) (u : User) : User :=
  mkUser (u_studentId u) (u_name u) (u_email u) (u_password u) (u_avatar u)
         (u_points u) (u_category u) (u_pointsHistory u ++ [item]) (u_recycledKg u)
         (u_createdAt u).

(** ** Handlers as computations on the database

    A handler may raise after it has written: the database it leaves behind
    is returned next to the exception. *)

Definition M (A : Type) : Type := DB -> (exn + A) * DB.

Definition ret {A : Type} (a : A) : M A := fun db => (inr a, db).

Definition bind {A B : Type} (m : M A) (k : A -> M B) : M B :=
  fun db =>
    match m db with
    | (inr a, db') => k a db'
    | (inl e, db') => (inl e, db')
    end.

Definition raise {A : Type} (e : exn) : M A := fun db => (inl e, db).

Definition try_except {A : Type} (m : M A) (handler : exn -> M A) : M A :=
  fun db =>
    match m db with
    | (inl e, db') => handler e db'
    | r => r
    end.

(** A pure step that may raise. *)
Definition lift {A : Type} (r : exn + A) : M A := fun db => (r, db).

Definition read {A : Type} (f : DB -> A) : M A := fun db => (inr (f db), db).

Definition write (f : DB -> DB) : M unit := fun db => (inr tt, f db).

Notation "x <- m ;; k" := (bind m (fun x => k))
  (at level 61, m at next level, right associativity).
Notation "m ;;; k" := (bind m (fun _ => k))
  (at level 61, right associativity).

(** [if not x: raise e], continuing with the document found. *)
Definition or_raise {A : Type} (o : option A) (e : exn) : M A :=
  match o with
  | Some a => ret a
  | None => raise e
  end.

(** [if cond: raise e]. *)
Definition raise_if (cond : bool) (e : exn) : M unit :=
  if cond then raise e else ret tt.

(** The [except HTTPException: raise / except Exception as e: raise
    HTTPException(400, str(e))] that wraps a handler's body. *)
Definition http_errors {A : Type} (body : M A) : M A :=
  try_except body (fun e =>
    match e with
    | HTTPException _ _ => raise e
    | PyError err => raise (HTTPException 400 (str_error err))
    end).

(** [cat_order.index(c)], raising [ValueError] off the ladder. *)
Definition cat_order_index (c : string) : exn + nat :=
  match tier_index c with
  | Some i => inr i
  | None => inl (PyError (ValueError c))
  end.

(** ** Authentication *)

Record UserSummary := mkUserSummary {
  us_id : string;
  us_studentId : string;
  us_name : string;
  us_email : string;
  us_avatar : string;
  us_points : Z;
  us_category : string
}.

Record AuthResponse := mkAuthResponse {
  a_success : bool;
  a_user : UserSummary;
  a_token : string
}.

(** [User(studentId=..., name=..., email=..., password=..., avatar=...)]:
    the fields not given take the defaults of the model, among them
    [points = 0] and [category = "Clásico"].  [email[0]] raises on the empty
    string. *)
Definition new_user (e : Env) (credentials : UserLogin) : exn + User :=
  let studentId := "ST" ++ str_of_nonneg (randint 10000 99999 (getrandbits e 0)) in
  let name := title (split_head "@" (l_email credentials)) in
  match l_email credentials with
  | EmptyString => inl (PyError IndexError)
  | String a _ =>
      inr {| u_studentId := studentId;
             u_name := name;
             u_email := l_email credentials;
             u_password := l_password credentials;
             u_avatar := String (to_upper a) EmptyString;
             u_points := 0;
             u_category := "Clásico";
             u_pointsHistory := [];
             u_recycledKg := 0%float;
             u_createdAt := utcnow e 0 |}
  end.

Definition by_email (email : string) (d : ObjectId_t * User) : bool :=
  String.eqb (u_email (snd d)) email.

Definition auth_response (d : ObjectId_t * User) : AuthResponse :=
  {| a_success := true;
     a_user := {| us_id := oid_hex (fst d);
                  us_studentId := u_studentId (snd d);
                  us_name := u_name (snd d);
                  us_email := u_email (snd d);
                  us_avatar := u_avatar (snd d);
                  us_points := u_points (snd d);
                  us_category := u_category (snd d) |};
     a_token := "mock_token_123" |}.

(** [insert_one] followed by the [find_one] on the inserted identifier. *)
Definition create_user (e : Env) (credentials : UserLogin) : M (ObjectId_t * User) :=
  new_user <- lift (new_user e credentials) ;;
  let inserted_id := new_ObjectId e 0 in
  write (fun db => with_users db (users db ++ [(inserted_id, new_user)])%list) ;;;
  user <- read (fun db => find (by_id inserted_id) (users db)) ;;
  or_raise user (PyError TypeError).

Definition login (e : Env) (credentials : UserLogin) : M AuthResponse :=
  user <- read (fun db => find (by_email (l_email credentials)) (users db)) ;;
  user <- match user with
          | Some user => ret user
          | None => create_user e credentials
          end ;;
  ret (auth_response user).

Definition register (e : Env) (credentials : UserLogin) : M AuthResponse :=
  existing <- read (fun db => find (by_email (l_email credentials)) (users db)) ;;
  raise_if (match existing with Some _ => true | None => false end)
           (HTTPException 400 "Usuario ya existe") ;;;
  user <- create_user e credentials ;;
  ret (auth_response user).

(** ** Rewards *)

(** A document as the API returns it: its identifier as text (under both
    ["_id"] and ["id"]) with the stored fields. *)
Definition as_json {A : Type} (d : ObjectId_t * A) : string * A := (oid_hex (fst d), snd d).

(** The query built by [get_rewards]: [None] is the empty query [{}],
    [Some cats] is [{"category": {"$in": cats}}]. *)
Definition rewards_query (category : option string) : option (list string) :=
  match category with
  | Some (String a s as category) =>
      if contains category cat_order then
        match index category cat_order with
        | Some idx => Some (firstn (idx + 1) cat_order)
        | None => None
        end
      else None
  | _ => None
  end.

Definition matches_query (query : option (list string)) (d : ObjectId_t * Reward) : bool :=
  match query with
  | None => true
  | Some cats => contains (r_category (snd d)) cats
  end.

Definition get_rewards (category : option string) : M (list (string * Reward)) :=
  let query := rewards_query category in
  rewards <- read (fun db => firstn 100 (filter (matches_query query) (rewards db))) ;;
  ret (map as_json rewards).

Record RedeemResponse := mkRedeemResponse {
  rr_success : bool;
  rr_message : string;
  rr_newPoints : Z;
  rr_newCategory : string
}.

Definition redeem_reward (e : Env) (request : RedeemRequest) : M RedeemResponse :=
  http_errors (
    user_id <- lift (ObjectId (rq_userId request)) ;;
    user <- read (fun db => find (by_id user_id) (users db)) ;;
    user <- or_raise user (HTTPException 404 "Usuario no encontrado") ;;
    let user := snd user in
    reward_id <- lift (ObjectId (rq_rewardId request)) ;;
    reward <- read (fun db => find (by_id reward_id) (rewards db)) ;;
    reward <- or_raise reward (HTTPException 404 "Recompensa no encontrada") ;;
    let reward := snd reward in
    raise_if (u_points user <? r_pointsCost reward)
             (HTTPException 400 "Puntos insuficientes") ;;;
    user_cat_idx <- lift (cat_order_index (u_category user)) ;;
    reward_cat_idx <- lift (cat_order_index (r_category reward)) ;;
    raise_if (user_cat_idx <? reward_cat_idx)%nat
             (HTTPException 400 "Categoría insuficiente") ;;;
    let new_points := u_points user - r_pointsCost reward in
    let new_category := get_category_from_points new_points in
    let history_item :=
      {| h_date := utcnow e 0;
         h_points := - r_pointsCost reward;
         h_description := "Canjeado: " ++ r_title reward;
         h_type := "redeemed" |} in
    user_id <- lift (ObjectId (rq_userId request)) ;;
    write (fun db => with_users db
             (update_first (by_id user_id)
                (on_doc (fun u => push_pointsHistory history_item
                                    (set_category new_category (set_points new_points u))))
                (users db))) ;;;
    ret {| rr_success := true;
           rr_message := "Recompensa canjeada exitosamente";
           rr_newPoints := new_points;
           rr_newCategory := new_category |}).

(** ** QR scan *)

Record ScanResponse := mkScanResponse {
  sr_success : bool;
  sr_pointsEarned : Z;
  sr_newPoints : Z;
  sr_newCategory : string;
  sr_containerName : string;
  sr_kgRecycled : float
}.

Definition by_name (name : string) (d : ObjectId_t * Container) : bool :=
  String.eqb (c_name (snd d)) name.

(** The inner [try ... except:] of [scan_qr]: the lookup by name runs when
    the lookup by identifier raised, that is, when [qr_data] is not a valid
    [ObjectId]. *)
Definition find_container (qr_data : string) : M (option (ObjectId_t * Container)) :=
  try_except
    (container_id <- lift (ObjectId qr_data) ;;
     read (fun db => find (by_id container_id) (containers db)))
    (fun _ => read (fun db => find (by_name qr_data) (containers db))).

Definition scan_qr (e : Env) (request : ScanQRRequest) : M ScanResponse :=
  http_errors (
    let qr_data := sq_qrCode request in
    container <- find_container qr_data ;;
    container <- or_raise container (HTTPException 404 "Contenedor no válido") ;;
    raise_if (negb (String.eqb (c_status (snd container)) "operational"))
             (HTTPException 400 "Contenedor en mantenimiento") ;;;
    user_id <- lift (ObjectId (sq_userId request)) ;;
    user <- read (fun db => find (by_id user_id) (users db)) ;;
    user <- or_raise user (HTTPException 404 "Usuario no encontrado") ;;
    let user := snd user in
    let points_earned := randint 10 50 (getrandbits e 0) in
    let new_points := u_points user + points_earned in
    let new_category := get_category_from_points new_points in
    let new_kg := (u_recycledKg user + float_of_int points_earned * one_tenth)%float in
    let history_item :=
      {| h_date := utcnow e 0;
         h_points := points_earned;
         h_description := "Reciclaje en " ++ c_name (snd container);
         h_type := "earned" |} in
    user_id <- lift (ObjectId (sq_userId request)) ;;
    write (fun db => with_users db
             (update_first (by_id user_id)
                (on_doc (fun u => push_pointsHistory history_item
                                    (set_recycledKg new_kg
                                       (set_category new_category (set_points new_points u)))))
                (users db))) ;;;
    let scan_record :=
      {| s_userId := sq_userId request;
         s_containerId := oid_hex (fst container);
         s_pointsEarned := points_earned;
         s_timestamp := utcnow e 1 |} in
    write (fun db => with_scans db (scans db ++ [(new_ObjectId e 0, scan_record)])%list) ;;;
    ret {| sr_success := true;
           sr_pointsEarned := points_earned;
           sr_newPoints := new_points;
           sr_newCategory := new_category;
           sr_containerName := c_name (snd container);
           sr_kgRecycled := (float_of_int points_earned * one_tenth)%float |}).

(** ** Seed data *)

Record InitResponse := mkInitResponse {
  i_message : string;
  i_counts : option (Z * Z)
}.

Definition containers_data (e : Env) : list Container :=
  [ {| c_name := "Contenedor A - Biblioteca";
       c_location := mkLocation 30 40;
       c_status := "operational";
       c_address := "Edificio de Biblioteca, Piso 1";
       c_lastMaintenance := utcnow e 0;
       c_type := "mixed" |};
    {| c_name := "Contenedor B - Cafetería";
       c_location := mkLocation 60 30;
       c_status := "operational";
       c_address := "Cafetería Central";
       c_lastMaintenance := utcnow e 1;
       c_type := "plastic" |};
    {| c_name := "Contenedor C - Laboratorios";
       c_location := mkLocation 45 70;
       c_status := "maintenance";
       c_address := "Edificio de Laboratorios, Entrada Principal";
       c_lastMaintenance := utcnow e 2;
       c_type := "paper" |};
    {| c_name := "Contenedor D - Gimnasio";
       c_location := mkLocation 75 60;
       c_status := "operational";
       c_address := "Centro Deportivo";
       c_lastMaintenance := utcnow e 3;
       c_type := "mixed" |};
    {| c_name := "Contenedor E - Estacionamiento";
       c_location := mkLocation 20 20;
       c_status := "operational";
       c_address := "Estacionamiento Norte";
       c_lastMaintenance := utcnow e 4;
       c_type := "mixed" |} ].

Definition rewards_data : list Reward :=
  [ mkReward "Café Gratis" "1 café americano o capuchino gratis en la cafetería"
             50 "Clásico" true "☕" "Cafetín";
    mkReward "Descuento 10% Librería" "10% de descuento en cualquier producto de la librería"
             80 "Clásico" true "📚" "Librería";
    mkReward "Snack Gratis" "Elige un snack gratis en la cafetería"
             30 "Clásico" true "🍪" "Cafetín";
    mkReward "Cuaderno Universitario" "Cuaderno de 100 hojas tamaño universitario"
             120 "Plata" true "📓" "Librería";
    mkReward "Vale S/10 Cafetería" "Vale por S/10 para usar en la cafetería"
             150 "Plata" true "🎫" "Cafetín";
    mkReward "Set de Lapiceros" "Set de 5 lapiceros de colores"
             100 "Plata" true "🖊️" "Librería";
    mkReward "Vale S/20 Librería" "Vale por S/20 para usar en la librería"
             300 "Oro" true "🎁" "Librería";
    mkReward "Mochila Ecológica" "Mochila de material reciclado con logo RISIB"
             400 "Oro" true "🎒" "Tienda RISIB";
    mkReward "Almuerzo Gratis" "Menú completo gratis en la cafetería"
             250 "Oro" true "🍽️" "Cafetín";
    mkReward "Vale S/50 Multiuso" "Vale por S/50 para usar en cafetería o librería"
             700 "Diamante" true "💎" "Multiuso";
    mkReward "Laptop Cooling Pad" "Base refrigerante para laptop"
             800 "Diamante" true "💻" "Tienda Tech";
    mkReward "Vale S/100 Premium"
             "Vale por S/100 para usar en cualquier establecimiento del campus"
             1200 "Black" true "🏆" "Premium";
    mkReward "Tablet Ecológica" "Tablet para tomar notas digitales"
             1500 "Black" true "📱" "Tienda Tech" ].

(** [for doc in docs: insert_one(doc)], the [k]-th generated identifier
    going to the first document. *)
Fixpoint insert_each {A : Type} (e : Env) (k : nat) (docs : list A) (c : collection A)
  : collection A :=
  match docs with
  | [] => c
  | doc :: docs' => insert_each e (S k) docs' (c ++ [(new_ObjectId e k, doc)])%list
  end.

Definition init_data (e : Env) : M InitResponse :=
  existing_containers <- read (fun db => Z.of_nat (List.length (containers db))) ;;
  if existing_containers >? 0 then
    ret {| i_message := "Datos ya inicializados"; i_counts := None |}
  else
    write (fun db => with_containers db
             (insert_each e 0 (containers_data e) (containers db))) ;;;
    write (fun db => with_rewards db
             (insert_each e (List.length (containers_data e)) rewards_data (rewards db))) ;;;
    ret {| i_message := "Datos inicializados correctamente";
           i_counts := Some (Z.of_nat (List.length (containers_data e)),
                             Z.of_nat (List.length rewards_data)) |}.

(** ** Runs of the service

    The requests that write to the database, and the databases the service
    can reach from an empty one. *)

Inductive request :=
| Login (credentials : UserLogin)
| Register (credentials : UserLogin)
| Redeem (r : RedeemRequest)
| Scan (r : ScanQRRequest)
| InitData.

Definition handle (e : Env) (q : request) (db : DB) : DB :=
  match q with
  | Login c => snd (login e c db)
  | Register c => snd (register e c db)
  | Redeem r => snd (redeem_reward e r db)
  | Scan r => snd (scan_qr e r db)
  | InitData => snd (init_data e db)
  end.

Inductive reachable : DB -> Prop :=
| reachable_empty : reachable empty_db
| reachable_step (e : Env) (q : request) (db : DB) :
    reachable db -> reachable (handle e q db).

(** The denormalised category agrees with the points it is stored with. *)
Definition category_consistent (u : User) : Prop :=
  u_category u = get_category_from_points (u_points u).

Definition users_consistent (db : DB) : Prop :=
  Forall (fun d => category_consistent (snd d)) (users db).

(** What the preconditions of redeem and scan speak about: the documents a
    request's identifiers denote. *)
Definition lookup {A : Type} (c : collection A) (id : string) : option (ObjectId_t * A) :=
  match ObjectId id with
  | inr oid => find (by_id oid) c
  | inl _ => None
  end.

(** The container a QR payload denotes: by identifier when the payload reads
    as one, by name otherwise. *)
Definition resolve_container (cs : collection Container) (qr_data : string)
  : option (ObjectId_t * Container) :=
  match ObjectId qr_data with
  | inr oid => find (by_id oid) cs
  | inl _ => find (by_name qr_data) cs
  end.


(** Between [db] and [db'] at most the user document [uid] differs. *)
Definition only_user_changed (uid : ObjectId_t) (db db' : DB) : Prop :=
  List.length (users db') = List.length (users db) /\
  map fst (users db') = map fst (users db) /\
  (forall oid, ObjectId_eqb oid uid = false ->
               find (by_id oid) (users db') = find (by_id oid) (users db)) /\
  containers db' = containers db /\
  rewards db' = rewards db.

(** The fields of a user document that no handler updates. *)
Definition same_profile (u u' : User) : Prop :=
  u_studentId u' = u_studentId u /\
  u_name u' = u_name u /\
  u_email u' = u_email u /\
  u_password u' = u_password u /\
  u_avatar u' = u_avatar u /\
  u_createdAt u' = u_createdAt u.

(** Points never go below zero. *)
Definition points_nonneg (db : DB) : Prop :=
  Forall (fun d => 0 <= u_points (snd d)) (users db).

(** What a run of redeem or scan does to the users: nothing when it fails;
    when it succeeds, one update of the document under the request's user
    identifier, which stores a category together with the points. *)
Definition user_write {A : Type} (id : string) (db : DB) (run : (exn + A) * DB) : Prop :=
  (exists err, run = (inl err, db)) \/
  (exists (resp : A) (uid : ObjectId_t) (g : User -> User),
     fst run = inr resp /\
     ObjectId id = inr uid /\
     users (snd run) = update_first (by_id uid) (on_doc g) (users db) /\
     (forall u, category_consistent (g u)) /\
     (points_nonneg db -> forall u, 0 <= u_points (g u))).

(** What a run of login or register does to the users: nothing, or one
    inserted document built by [new_user]. *)
Definition user_insert {A : Type} (e : Env) (credentials : UserLogin) (db : DB)
    (run : (exn + A) * DB) : Prop :=
  users (snd run) = users db \/
  (exists u, new_user e credentials = inr u /\
             users (snd run) = (users db ++ [(new_ObjectId e 0, u)])%list).


(** ** Reading single documents

    [get_user], [get_container] and [get_reward] wrap their body in a single
    [except Exception as e: raise HTTPException(400, str(e))]: the
    [HTTPException] the body raises for a missing document is caught by it
    too.  [str] of an [HTTPException] is ["<status_code>: <detail>"], as
    Starlette prints it. *)

Definition str_exn (e : exn) : string :=
  match e with
  | HTTPException status_code detail => str_of_nonneg status_code ++ ": " ++ detail
  | PyError err => str_error err
  end.

Definition every_error_400 {A : Type} (body : M A) : M A :=
  try_except body (fun e => raise (HTTPException 400 (str_exn e))).

Record UserProfile := mkUserProfile {
  p_id : string;
  p_studentId : string;
  p_name : string;
  p_email : string;
  p_avatar : string;
  p_points : Z;
  p_category : string;
  p_pointsHistory : list PointsHistoryItem;
  p_recycledKg : float;
  p_nextCategory : option NextCategory
}.

Definition user_profile (d : ObjectId_t * User) : UserProfile :=
  {| p_id := oid_hex (fst d);
     p_studentId := u_studentId (snd d);
     p_name := u_name (snd d);
     p_email := u_email (snd d);
     p_avatar := u_avatar (snd d);
     p_points := u_points (snd d);
     p_category := u_category (snd d);
     p_pointsHistory := u_pointsHistory (snd d);
     p_recycledKg := u_recycledKg (snd d);
     p_nextCategory := get_next_category_info (u_points (snd d)) |}.

Definition get_user (user_id : string) : M UserProfile :=
  every_error_400 (
    oid <- lift (ObjectId user_id) ;;
    user <- read (fun db => find (by_id oid) (users db)) ;;
    user <- or_raise user (HTTPException 404 "Usuario no encontrado") ;;
    ret (user_profile user)).

Definition get_containers : M (list (string * Container)) :=
  containers <- read (fun db => firstn 100 (containers db)) ;;
  ret (map as_json containers).

Definition get_container (container_id : string) : M (string * Container) :=
  every_error_400 (
    oid <- lift (ObjectId container_id) ;;
    container <- read (fun db => find (by_id oid) (containers db)) ;;
    container <- or_raise container (HTTPException 404 "Contenedor no encontrado") ;;
    ret (as_json container)).

Definition get_reward (reward_id : string) : M (string * Reward) :=
  every_error_400 (
    oid <- lift (ObjectId reward_id) ;;
    reward <- read (fun db => find (by_id oid) (rewards db)) ;;
    reward <- or_raise reward (HTTPException 404 "Recompensa no encontrada") ;;
    ret (as_json reward)).

(** ** What the handlers write

    The update a successful redeem or scan applies to the user document it
    found, and the ways one request can change the users collection. *)

Definition redeem_write (e : Env) (user : User) (reward : Reward) (u : User) : User :=
  push_pointsHistory
    {| h_date := utcnow e 0;
       h_points := - r_pointsCost reward;
       h_description := "Canjeado: " ++ r_title reward;
       h_type := "redeemed" |}
    (set_category (get_category_from_points (u_points user - r_pointsCost reward))
       (set_points (u_points user - r_pointsCost reward) u)).

Definition scan_write (e : Env) (user : User) (container : Container) (u : User) : User :=
  let points_earned := randint 10 50 (getrandbits e 0) in
  push_pointsHistory
    {| h_date := utcnow e 0;
       h_points := points_earned;
       h_description := "Reciclaje en " ++ c_name container;
       h_type := "earned" |}
    (set_recycledKg (u_recycledKg user + float_of_int points_earned * one_tenth)%float
       (set_category (get_category_from_points (u_points user + points_earned))
          (set_points (u_points user + points_earned) u))).

Definition scan_record (e : Env) (request : ScanQRRequest) (container : ObjectId_t * Container)
  : QRScan :=
  {| s_userId := sq_userId request;
     s_containerId := oid_hex (fst container);
     s_pointsEarned := randint 10 50 (getrandbits e 0);
     s_timestamp := utcnow e 1 |}.

Inductive users_step (e : Env) (db : DB) : collection User -> Prop :=
| users_same : users_step e db (users db)
| users_insert (credentials : UserLogin) (u : User) :
    find (by_email (l_email credentials)) (users db) = None ->
    new_user e credentials = inr u ->
    users_step e db (users db ++ [(new_ObjectId e 0, u)])%list
| users_redeem (before after : collection User) (d : ObjectId_t * User)
    (reward : ObjectId_t * Reward) :
    users db = (before ++ d :: after)%list ->
    Forall (fun x => by_id (fst d) x = false) before ->
    In reward (rewards db) ->
    r_pointsCost (snd reward) <= u_points (snd d) ->
    users_step e db
      (before ++ (fst d, redeem_write e (snd d) (snd reward) (snd d)) :: after)%list
| users_scan (before after : collection User) (d : ObjectId_t * User)
    (container : ObjectId_t * Container) :
    users db = (before ++ d :: after)%list ->
    Forall (fun x => by_id (fst d) x = false) before ->
    In container (containers db) ->
    c_status (snd container) = "operational" ->
    users_step e db
      (before ++ (fst d, scan_write e (snd d) (snd container) (snd d)) :: after)%list.

(** The sum of the point deltas a history records. *)
Definition history_total (h : list PointsHistoryItem) : Z :=
  fold_right (fun item acc => h_points item + acc) 0 h.

(** A history entry as the handlers write them. *)
Definition handler_entry (item : PointsHistoryItem) : Prop :=
  (h_type item = "earned" /\ 10 <= h_points item <= 50) \/
  (h_type item = "redeemed").

(** An identifier in canonical text: reading its text gives it back. *)
Definition canonical (oid : ObjectId_t) : Prop := ObjectId (oid_hex oid) = inr oid.

(** The two collections [init_data] writes are empty or hold one seed. *)
Definition seeded_once (db : DB) : Prop :=
  (containers db = [] /\ rewards db = []) \/
  (exists e, map snd (containers db) = containers_data e /\
             map snd (rewards db) = rewards_data).

(** [tier_le] as a test. *)
Definition tier_leb (c d : string) : bool :=
  match tier_index c, tier_index d with
  | Some i, Some j => (i <=? j)%nat
  | _, _ => false
  end.

(** [$set: {available: b}] on a reward document. *)
Definition set_available (b : bool) (r : Reward) : Reward :=
  mkReward (r_title r) (r_description r) (r_pointsCost r) (r_category r) b
           (r_image r) (r_location r).

(** ** Sample data

    An environment and a small database on which the handlers are run in
    the examples below. *)

Definition hex_digit (v : N) : ascii :=
  ascii_of_N (if (v <? 10)%N then 48 + v else 87 + v)%N.

Fixpoint hex_text (width : nat) (v : N) (acc : string) : string :=
  match width with
  | O => acc
  | S width' => hex_text width' (v / 16)%N (String (hex_digit (v mod 16)%N) acc)
  end.

Definition sample_env : Env :=
  {| utcnow := fun k => 1700000000 + Z.of_nat k;
     getrandbits := fun k => (25 + N.of_nat k)%N;
     new_ObjectId := fun k => mkObjectId (hex_text 24 (N.of_nat k + 4096)%N "") |}.

Definition sample_user_id : string := "65a1b2c3d4e5f60718293a4b".
Definition sample_container_id : string := "65a1b2c3d4e5f60718293a50".
Definition sample_closed_container_id : string := "65a1b2c3d4e5f60718293a51".
Definition sample_reward_id : string := "65a1b2c3d4e5f60718293a60".
Definition sample_oro_reward_id : string := "65a1b2c3d4e5f60718293a61".
Definition sample_costly_reward_id : string := "65a1b2c3d4e5f60718293a62".

Definition sample_user : User :=
  {| u_studentId := "ST12345";
     u_name := "Ana";
     u_email := "ana@campus.edu";
     u_password := "secret";
     u_avatar := "A";
     u_points := 260;
     u_category := "Plata";
     u_pointsHistory := [];
     u_recycledKg := 26%float;
     u_createdAt := 1690000000 |}.

Definition sample_reward : Reward :=
  mkReward "Cuaderno Universitario" "Cuaderno de 100 hojas tamaño universitario"
           120 "Plata" true "📓" "Librería".

Definition sample_oro_reward : Reward :=
  mkReward "Almuerzo Gratis" "Menú completo gratis en la cafetería"
           250 "Oro" true "🍽️" "Cafetín".

Definition sample_costly_reward : Reward :=
  mkReward "Vale S/20 Librería" "Vale por S/20 para usar en la librería"
           300 "Oro" true "🎁" "Librería".

Definition sample_container : Container :=
  mkContainer "Contenedor A - Biblioteca" (mkLocation 30 40) "operational"
              "Edificio de Biblioteca, Piso 1" 1690000000 "mixed".

Definition sample_closed_container : Container :=
  mkContainer "Contenedor C - Laboratorios" (mkLocation 45 70) "maintenance"
              "Edificio de Laboratorios, Entrada Principal" 1690000000 "paper".

Definition sample_db : DB :=
  {| users := [(mkObjectId sample_user_id, sample_user)];
     containers :=
       [ (mkObjectId sample_container_id, sample_container);
         (mkObjectId sample_closed_container_id, sample_closed_container) ];
     rewards :=
       [ (mkObjectId sample_reward_id, sample_reward);
         (mkObjectId sample_oro_reward_id, sample_oro_reward);
         (mkObjectId sample_costly_reward_id, sample_costly_reward) ];
     scans := [] |}.


(** A run from the empty database: a first login, the seeding, and three
    scans of the library container by the user the login created. *)
Definition sample_login : UserLogin := mkUserLogin "ana.perez@campus.edu" "secret".

Definition sample_scan : ScanQRRequest :=
  mkScanQRRequest "000000000000000000001000" "Contenedor A - Biblioteca".

Definition sample_run : DB :=
  handle sample_env (Scan sample_scan)
    (handle sample_env (Scan sample_scan)
       (handle sample_env (Scan sample_scan)
          (handle sample_env InitData
             (handle sample_env (Login sample_login) empty_db)))).

(** * Properties *)

(** ** The category ladder *)

Ltac split_geb :=
  repeat match goal with
         | |- context [?a >=? ?b] => rewrite (Z.geb_leb a b); destruct (Z.leb_spec b a)
         end.

Lemma cat_order_thresholds :
  map get_category_requirements cat_order = [0; 100; 300; 600; 1000].
Proof. reflexivity. Qed.

Lemma category_in_ladder (p : Z) : In (get_category_from_points p) cat_order.
Proof.
  unfold get_category_from_points, cat_order; split_geb; simpl; tauto.
Qed.

Lemma category_threshold_met (p : Z) :
  0 <= p -> get_category_requirements (get_category_from_points p) <= p.
Proof.
  intros Hp; unfold get_category_from_points; split_geb;
    vm_compute get_category_requirements; lia.
Qed.

Lemma category_is_highest (p : Z) (c : string) :
  In c cat_order -> get_category_requirements c <= p ->
  tier_le c (get_category_from_points p).
Proof.
  intros Hin Hle.
  repeat (destruct Hin as [<- | Hin]); try contradiction;
    match type of Hle with
    | ?t <= _ => let v := eval vm_compute in t in change t with v in Hle
    end;
    unfold get_category_from_points; split_geb; try lia;
    vm_compute; repeat constructor.
Qed.

Lemma category_below_zero (p : Z) : p < 0 -> get_category_from_points p = "Clásico".
Proof.
  intros Hp; unfold get_category_from_points; split_geb; try lia; reflexivity.
Qed.

Lemma category_monotone (p q : Z) :
  p <= q -> tier_le (get_category_from_points p) (get_category_from_points q).
Proof.
  intros Hpq; unfold get_category_from_points; split_geb; try lia;
    vm_compute; repeat constructor.
Qed.

(** C1.  [get_category_from_points p] is the highest tier of the ladder
    Clásico(0) < Plata(100) < Oro(300) < Diamante(600) < Black(1000) whose
    threshold is at most [p]: it is a tier of the ladder, its threshold is
    met (for a points value, [0 <= p]), and every tier whose threshold is met
    lies at or below it.  At the boundaries 99 is Clásico, 100 is Plata, 299
    is still Plata (one below the Oro boundary), 300 is Oro and 1000 is
    Black; and the function is non-decreasing in [p]. *)
Theorem category_from_points_ladder (p : Z) :
  map get_category_requirements cat_order = [0; 100; 300; 600; 1000] /\
  In (get_category_from_points p) cat_order /\
  (0 <= p -> get_category_requirements (get_category_from_points p) <= p) /\
  (forall c, In c cat_order -> get_category_requirements c <= p ->
             tier_le c (get_category_from_points p)) /\
  get_category_from_points 99 = "Clásico" /\
  get_category_from_points 100 = "Plata" /\
  get_category_from_points 299 = "Plata" /\
  get_category_from_points 300 = "Oro" /\
  get_category_from_points 1000 = "Black" /\
  (forall q, p <= q ->
             tier_le (get_category_from_points p) (get_category_from_points q)).
Proof.
  split; [exact cat_order_thresholds|].
  split; [apply category_in_ladder|].
  split; [apply category_threshold_met|].
  split; [intros c; apply category_is_highest|].
  repeat (split; [reflexivity|]).
  intros q; apply category_monotone.
Qed.

Lemma category_from_points_ladder_witness :
  get_category_requirements (get_category_from_points 450) <= 450 /\
  tier_le "Plata" (get_category_from_points 450) /\
  tier_le (get_category_from_points 450) (get_category_from_points 2000).
Proof.
  destruct (category_from_points_ladder 450) as (_ & _ & Hmet & Hhigh & _ & _ & _ & _ & _ & Hmono).
  split; [apply Hmet; lia|].
  split; [apply Hhigh; [simpl; tauto | vm_compute; discriminate]|].
  apply Hmono; lia.
Defined.

(** ** Collections *)

Lemma ObjectId_eqb_eq (a b : ObjectId_t) : ObjectId_eqb a b = true <-> a = b.
Proof.
  destruct a as [x], b as [y]; unfold ObjectId_eqb; simpl.
  rewrite String.eqb_eq; split; congruence.
Qed.

Lemma ObjectId_eqb_refl (a : ObjectId_t) : ObjectId_eqb a a = true.
Proof. now apply ObjectId_eqb_eq. Qed.

Lemma find_by_id_fst {A : Type} (oid : ObjectId_t) (c : collection A) (d : ObjectId_t * A) :
  find (by_id oid) c = Some d -> fst d = oid.
Proof.
  intros H; apply find_some in H; destruct H as [_ H].
  now apply ObjectId_eqb_eq.
Qed.

Lemma ObjectId_error (s : string) (e : exn) :
  ObjectId s = inl e -> e = PyError (InvalidId s).
Proof.
  unfold ObjectId; destruct (_ && _); congruence.
Qed.

Section UpdateFirst.
Context {A : Type} (sel : A -> bool) (f : A -> A).

Lemma update_first_length (l : list A) :
  List.length (update_first sel f l) = List.length l.
Proof.
  induction l as [|d l IH]; simpl; [reflexivity|].
  destruct (sel d); simpl; congruence.
Qed.

Lemma update_first_map {B : Type} (g : A -> B) (l : list A) :
  (forall d, g (f d) = g d) -> map g (update_first sel f l) = map g l.
Proof.
  intros Hg; induction l as [|d l IH]; simpl; [reflexivity|].
  destruct (sel d); simpl; congruence.
Qed.

Lemma find_update_first_hit (l : list A) (d : A) :
  (forall x, sel (f x) = sel x) ->
  find sel l = Some d -> find sel (update_first sel f l) = Some (f d).
Proof.
  intros Hsel; induction l as [|x l IH]; simpl; [discriminate|].
  destruct (sel x) eqn:Hx; simpl.
  - intros [= ->]. now rewrite Hsel, Hx.
  - rewrite Hx. exact IH.
Qed.

Lemma find_update_first_miss (sel' : A -> bool) (l : list A) :
  (forall x, sel' (f x) = sel' x) ->
  (forall x, sel' x = true -> sel x = false) ->
  find sel' (update_first sel f l) = find sel' l.
Proof.
  intros Hf Hdisj; induction l as [|x l IH]; simpl; [reflexivity|].
  destruct (sel x) eqn:Hx; simpl.
  - rewrite Hf. destruct (sel' x) eqn:Hx'; [|reflexivity].
    apply Hdisj in Hx'; congruence.
  - now rewrite IH.
Qed.

Lemma Forall_update_first (P : A -> Prop) (l : list A) :
  (forall d, sel d = true -> P (f d)) ->
  Forall P l -> Forall P (update_first sel f l).
Proof.
  intros Hf; induction 1 as [|d l Hd Hl IH]; simpl; [constructor|].
  destruct (sel d) eqn:Hs; constructor; auto.
Qed.
End UpdateFirst.

Lemma by_id_on_doc {A : Type} (oid : ObjectId_t) (g : A -> A) (d : ObjectId_t * A) :
  by_id oid (on_doc g d) = by_id oid d.
Proof. reflexivity. Qed.

Lemma by_id_disjoint {A : Type} (oid uid : ObjectId_t) (d : ObjectId_t * A) :
  ObjectId_eqb oid uid = false -> by_id oid d = true -> by_id uid d = false.
Proof.
  unfold by_id; intros Hne Hd.
  apply ObjectId_eqb_eq in Hd; subst oid.
  destruct (ObjectId_eqb (fst d) uid) eqn:H; congruence.
Qed.

Lemma lookup_some {A : Type} (c : collection A) (id : string) (d : ObjectId_t * A) :
  lookup c id = Some d ->
  ObjectId id = inr (fst d) /\ find (by_id (fst d)) c = Some d.
Proof.
  unfold lookup; destruct (ObjectId id) as [err|oid] eqn:Hid; [discriminate|].
  intros H. pose proof (find_by_id_fst _ _ _ H) as ->. now split.
Qed.

(** A user update that keeps the identifier changes that user only. *)
Lemma update_user_only (db : DB) (uid : ObjectId_t) (g : User -> User) :
  only_user_changed uid db
    (with_users db (update_first (by_id uid) (on_doc g) (users db))).
Proof.
  unfold only_user_changed; simpl.
  split; [apply update_first_length|].
  split; [now apply update_first_map|].
  split; [|now split].
  intros oid Hne; apply find_update_first_miss.
  - intros x; apply by_id_on_doc.
  - intros x; now apply by_id_disjoint.
Qed.

(** ** Redemption *)

Ltac run_handler :=
  cbv beta delta [http_errors try_except bind lift read write or_raise raise_if raise ret].

Lemma tier_index_cat_order (c : string) (i : nat) :
  tier_index c = Some i -> cat_order_index c = inr i.
Proof. unfold cat_order_index; now intros ->. Qed.

(** C3.  When the user exists, the reward exists, the points cover the cost
    and the user's tier is at or above the reward's, [redeem_reward]
    succeeds: the user's points drop by the cost, the category is the one of
    the new points, exactly one entry with points [- pointsCost] and type
    ["redeemed"] is appended to [pointsHistory] (nothing else changes), and
    the response carries the new points and the new category. *)
Theorem redeem_success (e : Env) (request : RedeemRequest) (db : DB)
    (user : ObjectId_t * User) (reward : ObjectId_t * Reward) (i j : nat) :
  lookup (users db) (rq_userId request) = Some user ->
  lookup (rewards db) (rq_rewardId request) = Some reward ->
  r_pointsCost (snd reward) <= u_points (snd user) ->
  tier_index (u_category (snd user)) = Some i ->
  tier_index (r_category (snd reward)) = Some j ->
  (j <= i)%nat ->
  let new_points := u_points (snd user) - r_pointsCost (snd reward) in
  let new_category := get_category_from_points new_points in
  let entry := {| h_date := utcnow e 0;
                  h_points := - r_pointsCost (snd reward);
                  h_description := "Canjeado: " ++ r_title (snd reward);
                  h_type := "redeemed" |} in
  exists (db' : DB) (user' : User),
    redeem_reward e request db =
      (inr {| rr_success := true;
              rr_message := "Recompensa canjeada exitosamente";
              rr_newPoints := new_points;
              rr_newCategory := new_category |}, db') /\
    lookup (users db') (rq_userId request) = Some (fst user, user') /\
    u_points user' = new_points /\
    u_category user' = new_category /\
    u_pointsHistory user' = (u_pointsHistory (snd user) ++ [entry])%list /\
    u_recycledKg user' = u_recycledKg (snd user) /\
    same_profile (snd user) user' /\
    only_user_changed (fst user) db db' /\
    scans db' = scans db.
Proof.
  intros Hu Hr Hcost Hi Hj Hji new_points new_category entry.
  apply lookup_some in Hu; destruct Hu as [Huid Hu].
  apply lookup_some in Hr; destruct Hr as [Hrid Hr].
  apply tier_index_cat_order in Hi, Hj.
  assert (Hlt : (u_points (snd user) <? r_pointsCost (snd reward)) = false)
    by (apply Z.ltb_ge; exact Hcost).
  assert (Hidx : (i <? j)%nat = false) by (apply Nat.ltb_ge; exact Hji).
  eexists; eexists.
  split.
  { unfold redeem_reward; run_handler.
    rewrite Huid, Hu, Hrid, Hr, Hlt, Hi, Hj, Hidx. reflexivity. }
  unfold lookup; rewrite Huid; simpl.
  split.
  { rewrite (find_update_first_hit _ _ _ _ (fun x => by_id_on_doc _ _ x) Hu).
    unfold on_doc. reflexivity. }
  repeat (split; [reflexivity|]).
  split; [unfold same_profile; simpl; tauto|].
  split; [apply update_user_only | reflexivity].
Qed.

Lemma redeem_success_witness :
  exists (db' : DB) (user' : User),
    redeem_reward sample_env (mkRedeemRequest sample_user_id sample_reward_id) sample_db =
      (inr (mkRedeemResponse true "Recompensa canjeada exitosamente" 140 "Plata"), db') /\
    lookup (users db') sample_user_id = Some (mkObjectId sample_user_id, user') /\
    u_points user' = 140 /\
    u_category user' = "Plata" /\
    u_pointsHistory user' =
      [mkPointsHistoryItem 1700000000 (-120) "Canjeado: Cuaderno Universitario" "redeemed"].
Proof.
  destruct (redeem_success sample_env (mkRedeemRequest sample_user_id sample_reward_id)
              sample_db (mkObjectId sample_user_id, sample_user)
              (mkObjectId sample_reward_id, sample_reward) 1%nat 1%nat)
    as (db' & user' & Hrun & Hlookup & Hpoints & Hcat & Hhist & _);
    [reflexivity | reflexivity | vm_compute; discriminate | reflexivity | reflexivity | lia |].
  exists db', user'.
  split; [exact Hrun|].
  split; [exact Hlookup|].
  split; [exact Hpoints|].
  split; [exact Hcat | exact Hhist].
Defined.





(** ** Scanning *)

Lemma randint_bounds (a b : Z) (raw : N) : a <= b -> a <= randint a b raw <= b.
Proof.
  intros Hab; unfold randint.
  pose proof (Z.mod_pos_bound (Z.of_N raw) (b - a + 1)); lia.
Qed.

Lemma find_container_run (qr_data : string) (db : DB) :
  find_container qr_data db = (inr (resolve_container (containers db) qr_data), db).
Proof.
  unfold find_container, resolve_container; run_handler.
  destruct (ObjectId qr_data); reflexivity.
Qed.

(** C5.  A scan against an operational container by an existing user
    succeeds with [pointsEarned] in [10, 50]: the user's points grow by
    exactly [pointsEarned], [recycledKg] becomes the stored value plus
    [pointsEarned * 0.1] (binary64 arithmetic), exactly one entry with these
    positive points and type ["earned"] is appended to the history, and
    exactly one record [{userId, containerId, pointsEarned, timestamp}] is
    appended to the scans. *)
Theorem scan_success (e : Env) (request : ScanQRRequest) (db : DB)
    (container : ObjectId_t * Container) (user : ObjectId_t * User) :
  resolve_container (containers db) (sq_qrCode request) = Some container ->
  c_status (snd container) = "operational" ->
  lookup (users db) (sq_userId request) = Some user ->
  let points_earned := randint 10 50 (getrandbits e 0) in
  let new_points := u_points (snd user) + points_earned in
  let new_category := get_category_from_points new_points in
  let entry := {| h_date := utcnow e 0;
                  h_points := points_earned;
                  h_description := "Reciclaje en " ++ c_name (snd container);
                  h_type := "earned" |} in
  let scan_record := {| s_userId := sq_userId request;
                        s_containerId := oid_hex (fst container);
                        s_pointsEarned := points_earned;
                        s_timestamp := utcnow e 1 |} in
  10 <= points_earned <= 50 /\
  exists (db' : DB) (user' : User),
    scan_qr e request db =
      (inr {| sr_success := true;
              sr_pointsEarned := points_earned;
              sr_newPoints := new_points;
              sr_newCategory := new_category;
              sr_containerName := c_name (snd container);
              sr_kgRecycled := (float_of_int points_earned * one_tenth)%float |}, db') /\
    lookup (users db') (sq_userId request) = Some (fst user, user') /\
    u_points user' = u_points (snd user) + points_earned /\
    u_category user' = new_category /\
    u_recycledKg user' =
      (u_recycledKg (snd user) + float_of_int points_earned * one_tenth)%float /\
    u_pointsHistory user' = (u_pointsHistory (snd user) ++ [entry])%list /\
    0 < h_points entry /\
    same_profile (snd user) user' /\
    only_user_changed (fst user) db db' /\
    scans db' = (scans db ++ [(new_ObjectId e 0, scan_record)])%list.
Proof.
  intros Hc Hstatus Hu points_earned new_points new_category entry scan_record.
  assert (Hrange : 10 <= points_earned <= 50) by (apply randint_bounds; lia).
  split; [exact Hrange|].
  apply lookup_some in Hu; destruct Hu as [Huid Hu].
  eexists; eexists.
  split.
  { unfold scan_qr; run_handler.
    rewrite find_container_run, Hc; cbv beta iota.
    rewrite Hstatus, String.eqb_refl; cbn [negb].
    rewrite Huid; cbv beta iota.
    rewrite Hu. reflexivity. }
  unfold lookup; rewrite Huid; cbn [users with_users with_scans].
  split.
  { rewrite (find_update_first_hit _ _ _ _ (fun x => by_id_on_doc _ _ x) Hu).
    unfold on_doc. reflexivity. }
  repeat (split; [reflexivity|]).
  split; [cbn [h_points entry]; lia|].
  split; [unfold same_profile; simpl; tauto|].
  split; [|reflexivity].
  apply (update_user_only db (fst user)).
Qed.

Lemma scan_success_witness :
  exists (db' : DB) (user' : User),
    fst (scan_qr sample_env (mkScanQRRequest sample_user_id sample_container_id) sample_db) =
      inr (mkScanResponse true 35 295 "Plata" "Contenedor A - Biblioteca" 3.5%float) /\
    snd (scan_qr sample_env (mkScanQRRequest sample_user_id sample_container_id) sample_db)
      = db' /\
    lookup (users db') sample_user_id = Some (mkObjectId sample_user_id, user') /\
    u_points user' = 295 /\
    u_recycledKg user' = 29.5%float /\
    List.length (scans db') = 1%nat.
Proof.
  destruct (scan_success sample_env (mkScanQRRequest sample_user_id sample_container_id)
              sample_db (mkObjectId sample_container_id, sample_container)
              (mkObjectId sample_user_id, sample_user))
    as (_ & db' & user' & Hrun & Hlookup & Hpoints & _ & Hkg & _ & _ & _ & _ & Hscans);
    [reflexivity | reflexivity | reflexivity |].
  exists db', user'.
  rewrite Hrun.
  split; [reflexivity|].
  split; [reflexivity|].
  split; [exact Hlookup|].
  split; [exact Hpoints|].
  split; [exact Hkg|].
  rewrite Hscans; reflexivity.
Defined.

(** C6.  A scan that resolves to a container whose status is not
    ["operational"] is rejected with 400 "Contenedor en mantenimiento", and
    the database (users and scans included) is left as it was. *)
Theorem scan_maintenance (e : Env) (request : ScanQRRequest) (db : DB)
    (container : ObjectId_t * Container) :
  resolve_container (containers db) (sq_qrCode request) = Some container ->
  c_status (snd container) <> "operational" ->
  scan_qr e request db = (inl (HTTPException 400 "Contenedor en mantenimiento"), db).
Proof.
  intros Hc Hstatus.
  apply String.eqb_neq in Hstatus.
  unfold scan_qr; run_handler.
  rewrite find_container_run, Hc, Hstatus. reflexivity.
Qed.

Lemma scan_maintenance_witness :
  scan_qr sample_env (mkScanQRRequest sample_user_id sample_closed_container_id) sample_db =
    (inl (HTTPException 400 "Contenedor en mantenimiento"), sample_db).
Proof.
  apply (scan_maintenance sample_env
           (mkScanQRRequest sample_user_id sample_closed_container_id) sample_db
           (mkObjectId sample_closed_container_id, sample_closed_container)).
  - reflexivity.
  - vm_compute; discriminate.
Defined.




(** ** Next category *)

(** C8.  Below 1000 points [get_next_category_info] returns the tier that
    follows the current one on the ladder, whose threshold is the next one
    not yet met, with [pointsNeeded = threshold - p], [currentPoints = p],
    [totalPoints = threshold] and [progress = p / threshold * 100] (binary64,
    no clamping); from 1000 points on it returns [None]; at 0 points it is
    Plata with 100 points needed and progress 0. *)
Theorem next_category_info (p : Z) :
  (p < 1000 ->
   exists (name : string) (threshold : Z),
     get_next_category_info p =
       Some {| nc_name := name;
               nc_pointsNeeded := threshold - p;
               nc_currentPoints := p;
               nc_totalPoints := threshold;
               nc_progress := (float_of_int p / float_of_int threshold * 100)%float |} /\
     In name cat_order /\
     get_category_requirements name = threshold /\
     p < threshold /\
     tier_index name = option_map S (tier_index (get_category_from_points p)) /\
     (0 <= p -> forall c, In c cat_order -> p < get_category_requirements c ->
                          threshold <= get_category_requirements c)) /\
  (1000 <= p -> get_next_category_info p = None) /\
  get_next_category_info 0 =
    Some {| nc_name := "Plata";
            nc_pointsNeeded := 100;
            nc_currentPoints := 0;
            nc_totalPoints := 100;
            nc_progress := 0%float |}.
Proof.
  assert (Hleast : forall t, 0 <= p ->
            (t = 100 \/ t = 300 \/ t = 600 \/ t = 1000) ->
            (forall q, In q [100; 300; 600; 1000] -> q < t -> q <= p) ->
            forall c, In c cat_order -> p < get_category_requirements c ->
                      t <= get_category_requirements c).
  { intros t Hp Ht Hbelow c Hc Hlt.
    assert (Hq : get_category_requirements c = 0 \/
                 In (get_category_requirements c) [100; 300; 600; 1000]).
    { repeat (destruct Hc as [<- | Hc]); try contradiction;
        vm_compute; intuition congruence. }
    destruct Hq as [Hq | Hq]; [lia|].
    destruct (Z.lt_ge_cases (get_category_requirements c) t) as [Hlow | Hhigh]; [|lia].
    specialize (Hbelow _ Hq Hlow); lia. }
  split; [|split; [|reflexivity]].
  - intros Hp.
    unfold get_next_category_info, thresholds, next_category_loop, get_category_from_points.
    split_geb; try lia;
      repeat match goal with
             | |- context [?a <? ?b] => destruct (Z.ltb_spec a b); try lia
             end;
      eexists; eexists; (split; [reflexivity|]);
      (split; [simpl; tauto|]); (split; [reflexivity|]); (split; [lia|]);
      (split; [reflexivity|]);
      intros Hnonneg; apply Hleast; auto;
      simpl; intros q Hq Hqt; intuition lia.
  - intros Hp.
    unfold get_next_category_info, thresholds, next_category_loop.
    repeat match goal with
           | |- context [?a <? ?b] => destruct (Z.ltb_spec a b); try lia
           end.
    reflexivity.
Qed.

Lemma next_category_info_witness :
  (exists (name : string) (threshold : Z),
     get_next_category_info 450 =
       Some {| nc_name := name;
               nc_pointsNeeded := threshold - 450;
               nc_currentPoints := 450;
               nc_totalPoints := threshold;
               nc_progress := (float_of_int 450 / float_of_int threshold * 100)%float |} /\
     get_category_requirements name = threshold /\
     450 < threshold /\
     threshold <= get_category_requirements "Black") /\
  get_next_category_info 1200 = None.
Proof.
  split.
  - destruct (proj1 (next_category_info 450))
      as (name & threshold & Hrun & _ & Hreq & Hlt & _ & Hleast); [lia|].
    exists name, threshold.
    split; [exact Hrun|].
    split; [exact Hreq|].
    split; [exact Hlt|].
    apply Hleast; [lia | simpl; tauto | vm_compute; reflexivity].
  - apply (proj1 (proj2 (next_category_info 1200))). lia.
Defined.

(** ** Seeding *)

Lemma insert_each_docs {A : Type} (e : Env) (docs : list A) :
  forall (k : nat) (c : collection A),
    map snd (insert_each e k docs c) = (map snd c ++ docs)%list.
Proof.
  induction docs as [|doc docs IH]; intros k c; simpl.
  - now rewrite app_nil_r.
  - rewrite IH, map_app; simpl. now rewrite <- app_assoc.
Qed.

Lemma init_data_seeded (e : Env) (db : DB) :
  containers db <> [] ->
  init_data e db = (inr {| i_message := "Datos ya inicializados"; i_counts := None |}, db).
Proof.
  intros Hne; unfold init_data; run_handler.
  destruct (containers db) as [|c cs]; [contradiction|].
  change (List.length (c :: cs)) with (S (List.length cs)).
  destruct (Z.gtb_spec (Z.of_nat (S (List.length cs))) 0); [reflexivity | lia].
Qed.

Lemma init_data_fresh (e : Env) (db : DB) :
  containers db = [] ->
  init_data e db =
    (inr {| i_message := "Datos inicializados correctamente"; i_counts := Some (5, 13) |},
     with_rewards (with_containers db (insert_each e 0 (containers_data e) []))
                  (insert_each e 5 rewards_data (rewards db))).
Proof.
  intros Hempty; unfold init_data; run_handler.
  rewrite Hempty.
  change (Z.of_nat (List.length (@nil (ObjectId_t * Container))) >? 0) with false.
  cbv beta iota. rewrite Hempty. reflexivity.
Qed.

Lemma init_data_leaves_containers (e : Env) (db : DB) :
  containers (snd (init_data e db)) <> [].
Proof.
  destruct (containers db) as [|c cs] eqn:Hc.
  - rewrite (init_data_fresh e db Hc); cbn [snd containers with_rewards with_containers].
    intros H; apply (f_equal (map snd)) in H.
    rewrite insert_each_docs in H; discriminate.
  - rewrite init_data_seeded; simpl; rewrite Hc; discriminate.
Qed.

(** C9.  [init_data] is idempotent: when containers already exist it
    answers "Datos ya inicializados" and inserts nothing, so a second call
    leaves the database exactly as the first one left it; on an empty
    database two calls leave the five containers and thirteen rewards of the
    seed, each once. *)
Theorem init_data_idempotent (e1 e2 : Env) (db : DB) :
  (containers db <> [] ->
   init_data e2 db =
     (inr {| i_message := "Datos ya inicializados"; i_counts := None |}, db)) /\
  (let db1 := snd (init_data e1 db) in
   init_data e2 db1 =
     (inr {| i_message := "Datos ya inicializados"; i_counts := None |}, db1)) /\
  (let db1 := snd (init_data e1 empty_db) in
   let db2 := snd (init_data e2 db1) in
   db2 = db1 /\
   map snd (containers db2) = containers_data e1 /\
   map snd (rewards db2) = rewards_data).
Proof.
  split; [apply init_data_seeded|].
  split; [apply init_data_seeded, init_data_leaves_containers|].
  cbv zeta.
  rewrite (init_data_seeded e2 _ (init_data_leaves_containers e1 empty_db)).
  split; [reflexivity|].
  rewrite (init_data_fresh e1 empty_db eq_refl).
  cbn [snd containers rewards with_rewards with_containers].
  rewrite !insert_each_docs. split; reflexivity.
Qed.

Lemma init_data_idempotent_witness :
  init_data sample_env sample_db =
    (inr {| i_message := "Datos ya inicializados"; i_counts := None |}, sample_db).
Proof.
  apply (proj1 (init_data_idempotent sample_env sample_env sample_db)).
  discriminate.
Defined.

(** ** Listing rewards *)

Lemma contains_false (x : string) (l : list string) :
  ~ In x l -> contains x l = false.
Proof.
  intros Hx; unfold contains.
  destruct (existsb (String.eqb x) l) eqn:H; [|reflexivity].
  apply existsb_exists in H; destruct H as (y & Hy & Heq).
  apply String.eqb_eq in Heq; subst y; contradiction.
Qed.

Lemma filter_everything {A : Type} (l : list A) : filter (fun _ => true) l = l.
Proof. induction l as [|x l IH]; simpl; congruence. Qed.

Lemma rewards_query_off_ladder (category : string) :
  ~ In category cat_order -> rewards_query (Some category) = None.
Proof.
  intros Hc; unfold rewards_query.
  destruct category as [|a s]; [reflexivity|].
  now rewrite contains_false.
Qed.

(** C10.  When the [category] query value is not one of the five tiers of
    the ladder, [get_rewards] ignores it: the answer is the one given when no
    category is supplied, the rewards of the collection unfiltered (as
    always, at most the first hundred). *)
Theorem get_rewards_unknown_category (category : string) (db : DB) :
  ~ In category cat_order ->
  get_rewards (Some category) db = get_rewards None db /\
  get_rewards (Some category) db = (inr (map as_json (firstn 100 (rewards db))), db).
Proof.
  intros Hc; unfold get_rewards.
  rewrite (rewards_query_off_ladder _ Hc).
  split; [reflexivity|].
  run_handler; unfold matches_query; cbn [rewards_query].
  now rewrite filter_everything.
Qed.

Lemma get_rewards_unknown_category_witness :
  get_rewards (Some "Bronce") sample_db = get_rewards None sample_db /\
  get_rewards (Some "Bronce") sample_db =
    (inr [ (sample_reward_id, sample_reward);
           (sample_oro_reward_id, sample_oro_reward);
           (sample_costly_reward_id, sample_costly_reward) ], sample_db).
Proof.
  apply (get_rewards_unknown_category "Bronce" sample_db).
  simpl; intuition discriminate.
Defined.

(** ** The category stored with the points *)

Lemma find_update_first_inv {A : Type} (sel : A -> bool) (f : A -> A) (l : list A) (d : A) :
  (forall x, sel (f x) = sel x) ->
  find sel (update_first sel f l) = Some d ->
  exists d0, find sel l = Some d0 /\ d = f d0.
Proof.
  intros Hsel; induction l as [|x l IH]; simpl; [discriminate|].
  destruct (sel x) eqn:Hx; simpl.
  - rewrite Hsel, Hx. intros [= <-]. now exists x.
  - rewrite Hx. exact IH.
Qed.

Lemma new_user_defaults (e : Env) (credentials : UserLogin) (u : User) :
  new_user e credentials = inr u -> u_points u = 0 /\ u_category u = "Clásico".
Proof.
  unfold new_user; destruct (l_email credentials); [discriminate|].
  intros [= <-]; split; reflexivity.
Qed.

Lemma create_user_insert (e : Env) (credentials : UserLogin) (db : DB) :
  user_insert e credentials db (create_user e credentials db).
Proof.
  unfold user_insert, create_user; run_handler.
  destruct (new_user e credentials) as [err|u]; [now left|].
  right; exists u; split; [reflexivity|].
  cbn [users with_users].
  destruct (find _ _); reflexivity.
Qed.

Lemma login_insert (e : Env) (credentials : UserLogin) (db : DB) :
  user_insert e credentials db (login e credentials db).
Proof.
  pose proof (create_user_insert e credentials db) as H.
  unfold user_insert, login in *; run_handler.
  destruct (find _ (users db)); [now left|].
  destruct (create_user e credentials db) as [[err|d] db']; exact H.
Qed.

Lemma register_insert (e : Env) (credentials : UserLogin) (db : DB) :
  user_insert e credentials db (register e credentials db).
Proof.
  pose proof (create_user_insert e credentials db) as H.
  unfold user_insert, register in *; run_handler.
  destruct (find _ (users db)); [now left|].
  destruct (create_user e credentials db) as [[err|d] db']; exact H.
Qed.

Lemma redeem_user_write (e : Env) (request : RedeemRequest) (db : DB) :
  user_write (rq_userId request) db (redeem_reward e request db).
Proof.
  unfold user_write, redeem_reward; run_handler; unfold cat_order_index.
  destruct (ObjectId (rq_userId request)) as [err|uid] eqn:Huid.
  { apply ObjectId_error in Huid; subst err. left; eexists; reflexivity. }
  destruct (find (by_id uid) (users db)) as [user|]; [|left; eexists; reflexivity].
  destruct (ObjectId (rq_rewardId request)) as [err|rid] eqn:Hrid.
  { apply ObjectId_error in Hrid; subst err. left; eexists; reflexivity. }
  destruct (find (by_id rid) (rewards db)) as [reward|]; [|left; eexists; reflexivity].
  destruct (Z.ltb_spec (u_points (snd user)) (r_pointsCost (snd reward))) as [Hlt|Hge];
    [left; eexists; reflexivity|].
  destruct (tier_index (u_category (snd user))) as [i|]; [|left; eexists; reflexivity].
  destruct (tier_index (r_category (snd reward))) as [j|]; [|left; eexists; reflexivity].
  destruct (i <? j)%nat; [left; eexists; reflexivity|].
  right. eexists; exists uid; eexists.
  split; [reflexivity|].
  split; [reflexivity|].
  split; [reflexivity|].
  split; intros; [reflexivity | cbn; lia].
Qed.

Lemma scan_user_write (e : Env) (request : ScanQRRequest) (db : DB) :
  user_write (sq_userId request) db (scan_qr e request db).
Proof.
  unfold user_write, scan_qr; run_handler.
  rewrite find_container_run.
  destruct (resolve_container _ _) as [container|]; [|left; eexists; reflexivity].
  cbv beta iota.
  destruct (negb _); [left; eexists; reflexivity|].
  destruct (ObjectId (sq_userId request)) as [err|uid] eqn:Huid.
  { apply ObjectId_error in Huid; subst err. left; eexists; reflexivity. }
  destruct (find (by_id uid) (users db)) as [user|] eqn:Hu; [|left; eexists; reflexivity].
  right. eexists; exists uid; eexists.
  split; [reflexivity|].
  split; [reflexivity|].
  split; [reflexivity|].
  split; intros; [reflexivity|].
  cbn [u_points push_pointsHistory set_recycledKg set_category set_points].
  assert (10 <= randint 10 50 (getrandbits e 0) <= 50) by (apply randint_bounds; lia).
  apply find_some in Hu; destruct Hu as [Hin _].
  unfold points_nonneg in *.
  match goal with H : Forall _ _ |- _ => rewrite Forall_forall in H; apply H in Hin end.
  lia.
Qed.

Lemma init_data_users (e : Env) (db : DB) : users (snd (init_data e db)) = users db.
Proof.
  unfold init_data; run_handler; cbv beta iota.
  match goal with |- context [if ?c then _ else _] => destruct c end; reflexivity.
Qed.

(** Every handler keeps a property of user documents that new users have
    and that the updates of redeem and scan establish. *)
Lemma handle_keeps (P : User -> Prop) (e : Env) (q : request) (db : DB) :
  (forall c u, new_user e c = inr u -> P u) ->
  (forall g : User -> User,
     (forall u, category_consistent (g u)) ->
     (points_nonneg db -> forall u, 0 <= u_points (g u)) ->
     forall u, P (g u)) ->
  Forall (fun d => P (snd d)) (users db) ->
  Forall (fun d => P (snd d)) (users (handle e q db)).
Proof.
  intros Hnew Hupd Hdb.
  assert (Hins : forall A c (run : (exn + A) * DB),
             user_insert e c db run -> Forall (fun d => P (snd d)) (users (snd run))).
  { intros A c run [Hsame | (u & Hu & Happ)]; [now rewrite Hsame|].
    rewrite Happ. apply Forall_app; split; [exact Hdb|].
    constructor; [exact (Hnew c u Hu) | constructor]. }
  assert (Hwr : forall A id (run : (exn + A) * DB),
             user_write id db run -> Forall (fun d => P (snd d)) (users (snd run))).
  { intros A id run [(err & Hrun) | (resp & uid & g & _ & _ & Husers & Hcat & Hpts)].
    - now rewrite Hrun.
    - rewrite Husers. apply Forall_update_first; [|exact Hdb].
      intros d _; cbn [on_doc snd]. now apply Hupd. }
  destruct q as [c | c | r | r | ]; cbn [handle].
  - apply (Hins _ c), login_insert.
  - apply (Hins _ c), register_insert.
  - apply (Hwr _ (rq_userId r)), redeem_user_write.
  - apply (Hwr _ (sq_userId r)), scan_user_write.
  - rewrite init_data_users; exact Hdb.
Qed.

Lemma handle_consistent (e : Env) (q : request) (db : DB) :
  users_consistent db -> users_consistent (handle e q db).
Proof.
  apply (handle_keeps category_consistent).
  - intros c u Hu; apply new_user_defaults in Hu; destruct Hu as [Hp Hc].
    unfold category_consistent; now rewrite Hp, Hc.
  - intros g Hcat _; exact Hcat.
Qed.

Lemma handle_nonneg (e : Env) (q : request) (db : DB) :
  points_nonneg db -> points_nonneg (handle e q db).
Proof.
  intros Hdb.
  apply (handle_keeps (fun u => 0 <= u_points u)); [| |exact Hdb].
  - intros c u Hu; apply new_user_defaults in Hu; destruct Hu as [Hp _]; lia.
  - intros g _ Hpts; exact (Hpts Hdb).
Qed.

(** On every database the service reaches, points are non-negative: the
    values [get_category_from_points] and [get_next_category_info] are
    applied to are points values in this sense. *)
Lemma reachable_points_nonneg (db : DB) : reachable db -> points_nonneg db.
Proof.
  induction 1 as [|e q db _ IH]; [constructor | now apply handle_nonneg].
Qed.

Lemma written_user_consistent {A : Type} (id : string) (db : DB) (resp : A) (db' : DB)
    (d : ObjectId_t * User) :
  user_write id db (inr resp, db') ->
  lookup (users db') id = Some d ->
  category_consistent (snd d).
Proof.
  intros [(err & [=]) | (resp' & uid & g & _ & Huid & Husers & Hcat & _)].
  unfold lookup; rewrite Huid; cbn [snd] in Husers; rewrite Husers.
  intros Hfind.
  apply find_update_first_inv in Hfind; [|intros x; apply by_id_on_doc].
  destruct Hfind as (d0 & _ & ->). apply Hcat.
Qed.

(** C2.  A user is created with 0 points and category "Clásico", which is
    the category of 0 points; every request handler (login, register,
    redeem, scan, init-data) takes a database in which each user's stored
    category is [get_category_from_points] of the stored points to another
    such database, so this holds of every user document the service can
    reach; and after a successful redeem or scan the document of the user of
    the request has exactly the category of its new points. *)
Theorem category_invariant :
  (forall e credentials u,
     new_user e credentials = inr u ->
     u_points u = 0 /\ u_category u = "Clásico" /\ category_consistent u) /\
  (forall e q db, users_consistent db -> users_consistent (handle e q db)) /\
  (forall db, reachable db -> users_consistent db) /\
  (forall e request db resp db' d,
     redeem_reward e request db = (inr resp, db') ->
     lookup (users db') (rq_userId request) = Some d ->
     category_consistent (snd d)) /\
  (forall e request db resp db' d,
     scan_qr e request db = (inr resp, db') ->
     lookup (users db') (sq_userId request) = Some d ->
     category_consistent (snd d)).
Proof.
  split.
  { intros e c u Hu; apply new_user_defaults in Hu; destruct Hu as [Hp Hc].
    repeat split; trivial. unfold category_consistent; now rewrite Hp, Hc. }
  split; [exact handle_consistent|].
  split.
  { induction 1 as [|e q db _ IH]; [constructor | now apply handle_consistent]. }
  split.
  - intros e request db resp db' d Hrun.
    apply (written_user_consistent _ db resp). rewrite <- Hrun. apply redeem_user_write.
  - intros e request db resp db' d Hrun.
    apply (written_user_consistent _ db resp). rewrite <- Hrun. apply scan_user_write.
Qed.

Lemma category_invariant_witness :
  users_consistent sample_run /\
  map (fun d => (oid_hex (fst d), u_name (snd d), u_points (snd d), u_category (snd d)))
      (users sample_run)
    = [("000000000000000000001000", "Ana.Perez", 105, "Plata")].
Proof.
  split; [|reflexivity].
  apply (proj1 (proj2 (proj2 category_invariant))).
  unfold sample_run.
  repeat apply reachable_step.
  apply reachable_empty.
Defined.

(** * Further properties of the handlers *)

(** ** What one request writes *)

Lemma update_first_split {A : Type} (sel : A -> bool) (f : A -> A) (l : list A) (d : A) :
  find sel l = Some d ->
  exists before after,
    l = (before ++ d :: after)%list /\
    Forall (fun x => sel x = false) before /\
    update_first sel f l = (before ++ f d :: after)%list.
Proof.
  induction l as [|x l IH]; simpl; [discriminate|].
  destruct (sel x) eqn:Hx.
  - intros [= ->]. exists [], l. repeat split. constructor.
  - intros H; destruct (IH H) as (before & after & -> & Hb & ->).
    exists (x :: before), after. repeat split. now constructor.
Qed.

Lemma lookup_in {A : Type} (c : collection A) (id : string) (d : ObjectId_t * A) :
  lookup c id = Some d -> In d c.
Proof.
  intros H; apply lookup_some in H; destruct H as [_ H].
  now apply find_some in H.
Qed.

Lemma redeem_effect (e : Env) (request : RedeemRequest) (db : DB) :
  (exists err, redeem_reward e request db = (inl err, db)) \/
  (exists user reward,
     lookup (users db) (rq_userId request) = Some user /\
     lookup (rewards db) (rq_rewardId request) = Some reward /\
     r_pointsCost (snd reward) <= u_points (snd user) /\
     redeem_reward e request db =
       (inr {| rr_success := true;
               rr_message := "Recompensa canjeada exitosamente";
               rr_newPoints := u_points (snd user) - r_pointsCost (snd reward);
               rr_newCategory :=
                 get_category_from_points (u_points (snd user) - r_pointsCost (snd reward)) |},
        with_users db
          (update_first (by_id (fst user))
             (on_doc (redeem_write e (snd user) (snd reward))) (users db)))).
Proof.
  unfold lookup, redeem_reward; run_handler; unfold cat_order_index.
  destruct (ObjectId (rq_userId request)) as [err|uid] eqn:Huid.
  { apply ObjectId_error in Huid; subst err. left; eexists; reflexivity. }
  destruct (find (by_id uid) (users db)) as [user|] eqn:Hu; [|left; eexists; reflexivity].
  destruct (ObjectId (rq_rewardId request)) as [err|rid] eqn:Hrid.
  { apply ObjectId_error in Hrid; subst err. left; eexists; reflexivity. }
  destruct (find (by_id rid) (rewards db)) as [reward|] eqn:Hr;
    [|left; eexists; reflexivity].
  destruct (Z.ltb_spec (u_points (snd user)) (r_pointsCost (snd reward))) as [Hlt|Hge];
    [left; eexists; reflexivity|].
  destruct (tier_index (u_category (snd user))) as [i|]; [|left; eexists; reflexivity].
  destruct (tier_index (r_category (snd reward))) as [j|]; [|left; eexists; reflexivity].
  destruct (i <? j)%nat; [left; eexists; reflexivity|].
  right; exists user, reward.
  rewrite (find_by_id_fst _ _ _ Hu).
  repeat split; trivial.
Qed.

Lemma scan_effect (e : Env) (request : ScanQRRequest) (db : DB) :
  (exists err, scan_qr e request db = (inl err, db)) \/
  (exists container user,
     resolve_container (containers db) (sq_qrCode request) = Some container /\
     c_status (snd container) = "operational" /\
     lookup (users db) (sq_userId request) = Some user /\
     scan_qr e request db =
       (inr {| sr_success := true;
               sr_pointsEarned := randint 10 50 (getrandbits e 0);
               sr_newPoints := u_points (snd user) + randint 10 50 (getrandbits e 0);
               sr_newCategory :=
                 get_category_from_points
                   (u_points (snd user) + randint 10 50 (getrandbits e 0));
               sr_containerName := c_name (snd container);
               sr_kgRecycled :=
                 (float_of_int (randint 10 50 (getrandbits e 0)) * one_tenth)%float |},
        with_scans
          (with_users db
             (update_first (by_id (fst user))
                (on_doc (scan_write e (snd user) (snd container))) (users db)))
          (scans db ++ [(new_ObjectId e 0, scan_record e request container)])%list)).
Proof.
  unfold lookup, scan_qr; run_handler.
  rewrite find_container_run.
  destruct (resolve_container _ _) as [container|]; [|left; eexists; reflexivity].
  cbv beta iota.
  destruct (String.eqb (c_status (snd container)) "operational") eqn:Hstatus;
    [|left; eexists; reflexivity].
  apply String.eqb_eq in Hstatus. cbn [negb].
  destruct (ObjectId (sq_userId request)) as [err|uid] eqn:Huid.
  { apply ObjectId_error in Huid; subst err. left; eexists; reflexivity. }
  destruct (find (by_id uid) (users db)) as [user|] eqn:Hu; [|left; eexists; reflexivity].
  right; exists container, user.
  rewrite (find_by_id_fst _ _ _ Hu).
  repeat split; trivial.
Qed.

Lemma create_user_effect (e : Env) (credentials : UserLogin) (db : DB) :
  (exists err, create_user e credentials db = (inl err, db)) \/
  (exists u, new_user e credentials = inr u /\
             snd (create_user e credentials db) =
               with_users db (users db ++ [(new_ObjectId e 0, u)])%list).
Proof.
  unfold create_user; run_handler.
  destruct (new_user e credentials) as [err|u]; [left; eexists; reflexivity|].
  right; exists u; split; [reflexivity|].
  cbv beta iota. destruct (find _ _); reflexivity.
Qed.

Lemma login_effect (e : Env) (credentials : UserLogin) (db : DB) :
  snd (login e credentials db) = db \/
  (find (by_email (l_email credentials)) (users db) = None /\
   exists u, new_user e credentials = inr u /\
             snd (login e credentials db) =
               with_users db (users db ++ [(new_ObjectId e 0, u)])%list).
Proof.
  unfold login; run_handler.
  destruct (find _ (users db)) eqn:Hfind; [now left|].
  destruct (create_user_effect e credentials db) as [(err & H) | (u & Hu & H)].
  - left. now rewrite H.
  - right. split; [reflexivity|]. exists u; split; [exact Hu|].
    destruct (create_user e credentials db) as [[err|d] db']; exact H.
Qed.

Lemma register_effect (e : Env) (credentials : UserLogin) (db : DB) :
  snd (register e credentials db) = db \/
  (find (by_email (l_email credentials)) (users db) = None /\
   exists u, new_user e credentials = inr u /\
             snd (register e credentials db) =
               with_users db (users db ++ [(new_ObjectId e 0, u)])%list).
Proof.
  unfold register; run_handler.
  destruct (find _ (users db)) eqn:Hfind; [now left|].
  destruct (create_user_effect e credentials db) as [(err & H) | (u & Hu & H)].
  - left. now rewrite H.
  - right. split; [reflexivity|]. exists u; split; [exact Hu|].
    destruct (create_user e credentials db) as [[err|d] db']; exact H.
Qed.

Lemma handle_users_step (e : Env) (q : request) (db : DB) :
  users_step e db (users (handle e q db)).
Proof.
  destruct q as [c | c | r | r | ]; cbn [handle].
  - destruct (login_effect e c db) as [-> | (Hnone & u & Hu & ->)];
      [constructor | now apply (users_insert e db c)].
  - destruct (register_effect e c db) as [-> | (Hnone & u & Hu & ->)];
      [constructor | now apply (users_insert e db c)].
  - destruct (redeem_effect e r db) as [(err & ->) | (user & reward & Hu & Hr & Hcost & ->)];
      [constructor|].
    cbn [snd users with_users].
    apply lookup_in in Hr.
    apply lookup_some in Hu; destruct Hu as [_ Hu].
    destruct (update_first_split _ (on_doc (redeem_write e (snd user) (snd reward))) _ _ Hu)
      as (before & after & Hsplit & Hbefore & ->).
    now apply users_redeem.
  - destruct (scan_effect e r db)
      as [(err & ->) | (container & user & Hc & Hstatus & Hu & ->)]; [constructor|].
    cbn [snd users with_users with_scans].
    apply lookup_some in Hu; destruct Hu as [_ Hu].
    destruct (update_first_split _ (on_doc (scan_write e (snd user) (snd container))) _ _ Hu)
      as (before & after & Hsplit & Hbefore & ->).
    apply users_scan; trivial.
    unfold resolve_container in Hc.
    destruct (ObjectId (sq_qrCode r)); now apply find_some in Hc.
  - rewrite init_data_users; constructor.
Qed.

(** ** Invariants of the users collection *)

Ltac written :=
  unfold redeem_write, scan_write, scan_record;
  cbn [u_studentId u_name u_email u_password u_avatar u_points u_category u_pointsHistory
       u_recycledKg u_createdAt push_pointsHistory set_recycledKg set_category set_points
       h_points h_type h_date h_description s_pointsEarned s_userId s_containerId
       s_timestamp fst snd].

(** A property of user documents that new users have and that the writes of
    redeem and scan keep holds after every request. *)
Lemma users_step_keeps (P : User -> Prop) (e : Env) (db : DB) (us : collection User) :
  (forall c u, new_user e c = inr u -> P u) ->
  (forall u reward, P u -> r_pointsCost reward <= u_points u ->
                    P (redeem_write e u reward u)) ->
  (forall u container, P u -> P (scan_write e u container u)) ->
  users_step e db us ->
  Forall (fun d => P (snd d)) (users db) ->
  Forall (fun d => P (snd d)) us.
Proof.
  intros Hnew Hredeem Hscan Hstep Hdb.
  destruct Hstep as [ | c u _ Hu | before after d reward Hsplit _ _ Hcost
                      | before after d container Hsplit _ _ _ ].
  - exact Hdb.
  - apply Forall_app; split; [exact Hdb|].
    constructor; [exact (Hnew c u Hu) | constructor].
  - rewrite Hsplit in Hdb. apply Forall_app in Hdb; destruct Hdb as [Hb Hd].
    inversion Hd as [|? ? Hd0 Ha]; subst.
    apply Forall_app; split; [exact Hb|].
    constructor; [|exact Ha]. now apply Hredeem.
  - rewrite Hsplit in Hdb. apply Forall_app in Hdb; destruct Hdb as [Hb Hd].
    inversion Hd as [|? ? Hd0 Ha]; subst.
    apply Forall_app; split; [exact Hb|].
    constructor; [|exact Ha]. now apply Hscan.
Qed.

Lemma reachable_keeps (P : User -> Prop) :
  (forall e c u, new_user e c = inr u -> P u) ->
  (forall e u reward, P u -> r_pointsCost reward <= u_points u ->
                      P (redeem_write e u reward u)) ->
  (forall e u container, P u -> P (scan_write e u container u)) ->
  forall db, reachable db -> Forall (fun d => P (snd d)) (users db).
Proof.
  intros Hnew Hredeem Hscan db Hreach.
  induction Hreach as [|e q db _ IH]; [constructor|].
  apply (users_step_keeps P e db);
    [apply Hnew | apply Hredeem | apply Hscan | apply handle_users_step | exact IH].
Qed.

Lemma history_total_app (h h' : list PointsHistoryItem) :
  history_total (h ++ h') = history_total h + history_total h'.
Proof.
  unfold history_total; induction h as [|item h IH]; simpl; [reflexivity|].
  rewrite IH; lia.
Qed.

Lemma new_user_fields (e : Env) (c : UserLogin) (u : User) :
  new_user e c = inr u ->
  u_email u = l_email c /\ l_email c <> "" /\ u_password u = l_password c /\
  u_points u = 0 /\ u_category u = "Clásico" /\ u_pointsHistory u = [] /\
  u_recycledKg u = 0%float.
Proof.
  unfold new_user; destruct (l_email c) eqn:Hemail; [discriminate|].
  intros [= <-]; cbn. repeat split; trivial. discriminate.
Qed.

(** On every database the service reaches, each user's points are the sum
    of the point deltas recorded in that user's [pointsHistory]: a new user
    starts with 0 points and no history, and redeem and scan write the new
    balance together with the entry that accounts for it. *)
Theorem reachable_points_are_history_total (db : DB) :
  reachable db ->
  Forall (fun d => u_points (snd d) = history_total (u_pointsHistory (snd d))) (users db).
Proof.
  apply (reachable_keeps (fun u => u_points u = history_total (u_pointsHistory u))).
  - intros e c u Hu; apply new_user_fields in Hu.
    destruct Hu as (_ & _ & _ & -> & _ & -> & _); reflexivity.
  - intros e u reward Hu _; written.
    rewrite history_total_app, <- Hu; unfold history_total; cbn [fold_right]; written; lia.
  - intros e u container Hu; written.
    rewrite history_total_app, <- Hu; unfold history_total; cbn [fold_right]; written; lia.
Qed.

Lemma sample_run_reachable : reachable sample_run.
Proof. unfold sample_run; repeat apply reachable_step; apply reachable_empty. Qed.

Lemma reachable_points_are_history_total_witness :
  Forall (fun d => u_points (snd d) = history_total (u_pointsHistory (snd d)))
         (users sample_run) /\
  map (fun d => map h_points (u_pointsHistory (snd d))) (users sample_run) = [[35; 35; 35]].
Proof.
  split; [|reflexivity].
  apply reachable_points_are_history_total.
  unfold sample_run; repeat apply reachable_step; apply reachable_empty.
Defined.

Lemma handle_scans (e : Env) (q : request) (db : DB) :
  scans (handle e q db) = scans db \/
  (exists request container,
     scans (handle e q db) =
       (scans db ++ [(new_ObjectId e 0, scan_record e request container)])%list).
Proof.
  destruct q as [c | c | r | r | ]; cbn [handle].
  - destruct (login_effect e c db) as [-> | (_ & u & _ & ->)]; now left.
  - destruct (register_effect e c db) as [-> | (_ & u & _ & ->)]; now left.
  - destruct (redeem_effect e r db) as [(err & ->) | (user & reward & _ & _ & _ & ->)];
      now left.
  - destruct (scan_effect e r db) as [(err & ->) | (container & user & _ & _ & _ & ->)];
      [now left|].
    right; now exists r, container.
  - left. destruct (containers db) as [|c cs] eqn:Hc.
    + now rewrite (init_data_fresh e db Hc).
    + rewrite init_data_seeded; [reflexivity | rewrite Hc; discriminate].
Qed.

(** On every database the service reaches, every history entry is of type
    ["earned"] with between 10 and 50 points or of type ["redeemed"], and
    every scan record carries between 10 and 50 points. *)
Theorem reachable_entries_well_formed (db : DB) :
  reachable db ->
  Forall (fun d => Forall handler_entry (u_pointsHistory (snd d))) (users db) /\
  Forall (fun s => 10 <= s_pointsEarned (snd s) <= 50) (scans db).
Proof.
  intros Hreach; split.
  - revert db Hreach.
    apply (reachable_keeps (fun u => Forall handler_entry (u_pointsHistory u))).
    + intros e c u Hu; apply new_user_fields in Hu.
      destruct Hu as (_ & _ & _ & _ & _ & -> & _); constructor.
    + intros e u reward Hu _; written.
      apply Forall_app; split; [exact Hu|].
      constructor; [now right | constructor].
    + intros e u container Hu; written.
      apply Forall_app; split; [exact Hu|].
      constructor; [|constructor].
      left; split; [reflexivity|]. written. apply randint_bounds; lia.
  - induction Hreach as [|e q db _ IH]; [constructor|].
    destruct (handle_scans e q db) as [-> | (r & c & ->)]; [exact IH|].
    apply Forall_app; split; [exact IH|].
    constructor; [|constructor]. written. apply randint_bounds; lia.
Qed.

Lemma reachable_entries_well_formed_witness :
  Forall (fun d => Forall handler_entry (u_pointsHistory (snd d))) (users sample_run) /\
  Forall (fun s => 10 <= s_pointsEarned (snd s) <= 50) (scans sample_run) /\
  List.length (scans sample_run) = 3%nat.
Proof.
  destruct (reachable_entries_well_formed sample_run) as [Hh Hs].
  - unfold sample_run; repeat apply reachable_step; apply reachable_empty.
  - split; [exact Hh|]. split; [exact Hs | reflexivity].
Defined.

Lemma find_by_email_none (email : string) (l : collection User) :
  find (by_email email) l = None -> ~ In email (map (fun d => u_email (snd d)) l).
Proof.
  intros Hnone Hin. apply in_map_iff in Hin; destruct Hin as (d & Hd & Hin).
  apply (find_none _ _ Hnone) in Hin.
  unfold by_email in Hin. rewrite Hd, String.eqb_refl in Hin. discriminate.
Qed.

Lemma users_step_emails (e : Env) (db : DB) (us : collection User) :
  users_step e db us ->
  NoDup (map (fun d => u_email (snd d)) (users db)) ->
  NoDup (map (fun d => u_email (snd d)) us).
Proof.
  intros Hstep Hdb.
  destruct Hstep as [ | c u Hnone Hu | before after d reward Hsplit _ _ _
                      | before after d container Hsplit _ _ _ ].
  - exact Hdb.
  - apply new_user_fields in Hu; destruct Hu as (Hemail & _).
    apply find_by_email_none in Hnone.
    rewrite map_app; cbn [map snd]. rewrite Hemail.
    apply NoDup_app; [exact Hdb | repeat constructor; simpl; tauto |].
    intros a Ha [<- | []]; contradiction.
  - rewrite Hsplit in Hdb. rewrite map_app in *. exact Hdb.
  - rewrite Hsplit in Hdb. rewrite map_app in *. exact Hdb.
Qed.

(** On every database the service reaches no two user documents share an
    e-mail address: login and register insert a user only after the lookup
    by e-mail found none, and no handler rewrites an address. *)
Theorem reachable_emails_unique (db : DB) :
  reachable db -> NoDup (map (fun d => u_email (snd d)) (users db)).
Proof.
  induction 1 as [|e q db _ IH]; [constructor|].
  apply (users_step_emails e db); [apply handle_users_step | exact IH].
Qed.

Lemma reachable_emails_unique_witness :
  NoDup (map (fun d => u_email (snd d)) (users sample_run)) /\
  map (fun d => u_email (snd d))
      (users (handle sample_env (Login sample_login) sample_run))
    = ["ana.perez@campus.edu"].
Proof.
  split; [|reflexivity].
  apply reachable_emails_unique.
  unfold sample_run; repeat apply reachable_step; apply reachable_empty.
Defined.

(** ** Users are kept, histories grow *)

Lemma find_app {A : Type} (sel : A -> bool) (l l' : list A) :
  find sel (l ++ l') = match find sel l with
                       | Some x => Some x
                       | None => find sel l'
                       end.
Proof.
  induction l as [|x l IH]; simpl; [reflexivity|].
  destruct (sel x); [reflexivity | exact IH].
Qed.

Lemma find_all_false {A : Type} (sel : A -> bool) (l : list A) :
  Forall (fun x => sel x = false) l -> find sel l = None.
Proof.
  induction 1 as [|x l Hx _ IH]; simpl; [reflexivity|].
  now rewrite Hx.
Qed.

Lemma same_profile_refl (u : User) : same_profile u u.
Proof. unfold same_profile; tauto. Qed.

(** A write to the document [d] that sits at the first position matching
    its identifier: what a lookup by any identifier finds afterwards. *)
Lemma find_after_write (before after : collection User) (d : ObjectId_t * User)
    (w : User) (oid : ObjectId_t) (found : ObjectId_t * User) :
  find (by_id oid) (before ++ d :: after) = Some found ->
  Forall (fun x => by_id (fst d) x = false) before ->
  (find (by_id oid) (before ++ (fst d, w) :: after) = Some found /\ found <> d) \/
  (find (by_id oid) (before ++ (fst d, w) :: after) = Some (fst d, w) /\ found = d).
Proof.
  intros Hfind Hbefore.
  rewrite find_app in *.
  destruct (find (by_id oid) before) as [x|] eqn:Hb.
  - left; split; [exact Hfind|].
    injection Hfind as <-. intros ->.
    pose proof (find_by_id_fst _ _ _ Hb) as Hoid.
    apply find_some in Hb; destruct Hb as [Hin _].
    rewrite Forall_forall in Hbefore. specialize (Hbefore _ Hin).
    unfold by_id in Hbefore. rewrite ObjectId_eqb_refl in Hbefore. discriminate.
  - cbn [find] in *. change (by_id oid (fst d, w)) with (by_id oid d).
    destruct (by_id oid d) eqn:Hd.
    + right. injection Hfind as <-. now split.
    + left; split; [exact Hfind|].
      intros ->. apply find_some in Hfind; destruct Hfind as [_ Hfind]. congruence.
Qed.

(** No request removes a user or rewrites a history: a user found under an
    identifier before a request is found under it afterwards, with the same
    profile fields and a history that extends the old one by at most one
    entry. *)
Theorem handle_keeps_users (e : Env) (q : request) (db : DB) (oid : ObjectId_t)
    (d : ObjectId_t * User) :
  find (by_id oid) (users db) = Some d ->
  exists (d' : ObjectId_t * User) (added : list PointsHistoryItem),
    find (by_id oid) (users (handle e q db)) = Some d' /\
    fst d' = fst d /\
    same_profile (snd d) (snd d') /\
    u_pointsHistory (snd d') = (u_pointsHistory (snd d) ++ added)%list /\
    (List.length added <= 1)%nat.
Proof.
  intros Hfind.
  destruct (handle_users_step e q db)
    as [ | c u _ _ | before after d0 reward Hsplit Hbefore _ _
         | before after d0 container Hsplit Hbefore _ _ ].
  - exists d, []. rewrite app_nil_r. repeat split; auto using same_profile_refl.
  - exists d, []. rewrite find_app, Hfind, app_nil_r.
    repeat split; auto using same_profile_refl.
  - rewrite Hsplit in Hfind.
    destruct (find_after_write _ _ _ (redeem_write e (snd d0) (snd reward) (snd d0))
                _ _ Hfind Hbefore) as [[Hsame _] | [Hnew ->]].
    + exists d, []. rewrite app_nil_r. repeat split; auto using same_profile_refl.
    + eexists; eexists. split; [exact Hnew|].
      unfold redeem_write, same_profile; cbn. repeat split; auto.
  - rewrite Hsplit in Hfind.
    destruct (find_after_write _ _ _ (scan_write e (snd d0) (snd container) (snd d0))
                _ _ Hfind Hbefore) as [[Hsame _] | [Hnew ->]].
    + exists d, []. rewrite app_nil_r. repeat split; auto using same_profile_refl.
    + eexists; eexists. split; [exact Hnew|].
      unfold scan_write, same_profile;
        cbn [u_studentId u_name u_email u_password u_avatar u_pointsHistory u_createdAt
             push_pointsHistory set_recycledKg set_category set_points fst snd].
      repeat split; auto.
Qed.

Lemma handle_keeps_users_witness :
  exists (d' : ObjectId_t * User) (added : list PointsHistoryItem),
    find (by_id (mkObjectId sample_user_id))
         (users (handle sample_env
                   (Redeem (mkRedeemRequest sample_user_id sample_reward_id)) sample_db))
      = Some d' /\
    u_email (snd d') = "ana@campus.edu" /\
    u_pointsHistory (snd d') = added /\
    (List.length added <= 1)%nat.
Proof.
  destruct (handle_keeps_users sample_env
              (Redeem (mkRedeemRequest sample_user_id sample_reward_id)) sample_db
              (mkObjectId sample_user_id) (mkObjectId sample_user_id, sample_user) eq_refl)
    as (d' & added & Hfind & _ & Hprofile & Hhist & Hlen).
  exists d', added. split; [exact Hfind|].
  split; [apply Hprofile|]. split; [exact Hhist | exact Hlen].
Defined.

(** ** Seeding across requests *)

Lemma handle_seed (e : Env) (q : request) (db : DB) :
  (containers (handle e q db) = containers db /\ rewards (handle e q db) = rewards db) \/
  (q = InitData /\ containers db = [] /\
   map snd (containers (handle e q db)) = containers_data e /\
   map snd (rewards (handle e q db)) = (map snd (rewards db) ++ rewards_data)%list).
Proof.
  destruct q as [c | c | r | r | ]; cbn [handle].
  - left. destruct (login_effect e c db) as [-> | (_ & u & _ & ->)]; now split.
  - left. destruct (register_effect e c db) as [-> | (_ & u & _ & ->)]; now split.
  - left. destruct (redeem_effect e r db) as [(err & ->) | (user & reward & _ & _ & _ & ->)];
      now split.
  - left. destruct (scan_effect e r db) as [(err & ->) | (container & user & _ & _ & _ & ->)];
      now split.
  - destruct (containers db) as [|c cs] eqn:Hc.
    + right. rewrite (init_data_fresh e db Hc).
      cbn [snd containers rewards with_rewards with_containers].
      rewrite !insert_each_docs. repeat split.
    + left. rewrite init_data_seeded; [now split | rewrite Hc; discriminate].
Qed.

Lemma seeded_once_reachable (db : DB) : reachable db -> seeded_once db.
Proof.
  induction 1 as [|e q db _ IH]; [left; now split|].
  destruct (handle_seed e q db) as [[Hc Hr] | (_ & Hempty & Hc & Hr)].
  - unfold seeded_once; rewrite Hc, Hr; exact IH.
  - right; exists e. split; [exact Hc|].
    destruct IH as [[_ Hrewards] | (e' & Hc' & _)].
    + now rewrite Hr, Hrewards.
    + rewrite Hempty in Hc'; discriminate.
Qed.

(** Only [init_data] writes containers and rewards, and across any sequence
    of requests it seeds at most once: on every database the service reaches
    the two collections are both empty, or hold exactly the five containers
    and the thirteen rewards of one seed. *)
Theorem reachable_seeded_once :
  (forall e q db, q <> InitData ->
     containers (handle e q db) = containers db /\
     rewards (handle e q db) = rewards db) /\
  (forall db, reachable db -> seeded_once db).
Proof.
  split; [|exact seeded_once_reachable].
  intros e q db Hq.
  destruct (handle_seed e q db) as [H | (Hinit & _)]; [exact H | contradiction].
Qed.

Lemma reachable_seeded_once_witness :
  seeded_once sample_run /\
  seeded_once (handle sample_env InitData sample_run) /\
  List.length (containers (handle sample_env InitData sample_run)) = 5%nat /\
  List.length (rewards (handle sample_env InitData sample_run)) = 13%nat /\
  containers (handle sample_env (Scan sample_scan) sample_run) = containers sample_run.
Proof.
  destruct reachable_seeded_once as [Hother Hseed].
  split; [apply Hseed, sample_run_reachable|].
  split; [apply Hseed, reachable_step, sample_run_reachable|].
  split; [reflexivity|]. split; [reflexivity|].
  apply Hother; discriminate.
Defined.

(** ** Login and registration *)

Lemma find_by_email_last (l : collection User) (oid : ObjectId_t) (u : User) :
  find (by_email (u_email u)) l = None ->
  find (by_email (u_email u)) (l ++ [(oid, u)]) = Some (oid, u).
Proof.
  intros Hnone. rewrite find_app, Hnone. cbn.
  unfold by_email; cbn. now rewrite String.eqb_refl.
Qed.

Lemma find_by_id_last {A : Type} (l : collection A) (oid : ObjectId_t) (a : A) :
  find (by_id oid) l = None ->
  find (by_id oid) (l ++ [(oid, a)]) = Some (oid, a).
Proof.
  intros Hnone. rewrite find_app, Hnone. cbn.
  unfold by_id; cbn. now rewrite ObjectId_eqb_refl.
Qed.

Lemma login_new_run (e : Env) (credentials : UserLogin) (db : DB) (u : User) :
  find (by_email (l_email credentials)) (users db) = None ->
  new_user e credentials = inr u ->
  find (by_id (new_ObjectId e 0)) (users db) = None ->
  login e credentials db =
    (inr (auth_response (new_ObjectId e 0, u)),
     with_users db (users db ++ [(new_ObjectId e 0, u)])%list).
Proof.
  intros Hemail Hu Hfresh.
  unfold login, create_user; run_handler.
  rewrite Hemail, Hu; cbv beta iota; cbn [users with_users].
  now rewrite (find_by_id_last _ _ u Hfresh).
Qed.

Lemma login_known_run (e : Env) (credentials : UserLogin) (db : DB)
    (d : ObjectId_t * User) :
  find (by_email (l_email credentials)) (users db) = Some d ->
  login e credentials db = (inr (auth_response d), db).
Proof.
  intros Hfind. unfold login; run_handler. now rewrite Hfind.
Qed.

(** [login] does not look at the password: whenever a user is stored under
    the e-mail address, any password logs in as that user, the answer
    carries that user's identifier, points and category, and the database is
    not written. *)
Theorem login_ignores_password (e1 e2 : Env) (c1 c2 : UserLogin) (db : DB)
    (d : ObjectId_t * User) :
  l_email c1 = l_email c2 ->
  find (by_email (l_email c1)) (users db) = Some d ->
  login e1 c1 db = (inr (auth_response d), db) /\
  login e2 c2 db = login e1 c1 db.
Proof.
  intros Hsame Hfind.
  rewrite (login_known_run e1 c1 db d Hfind).
  rewrite Hsame in Hfind.
  now rewrite (login_known_run e2 c2 db d Hfind).
Qed.

Lemma login_ignores_password_witness :
  login sample_env (mkUserLogin "ana@campus.edu" "not the password") sample_db
    = (inr (auth_response (mkObjectId sample_user_id, sample_user)), sample_db) /\
  u_password sample_user = "secret".
Proof.
  split; [|reflexivity].
  apply (login_ignores_password sample_env sample_env
           (mkUserLogin "ana@campus.edu" "not the password")
           (mkUserLogin "ana@campus.edu" "secret") sample_db
           (mkObjectId sample_user_id, sample_user)); reflexivity.
Defined.

(** A first login under an unseen, non-empty e-mail address creates the
    user (0 points, category "Clásico", the address and password given) as
    the last document of the collection and answers with it; logging in
    again under that address, with any password and at any later time,
    answers with the same user and inserts nothing.  The identifier the
    driver generates is taken to be unused. *)
Theorem login_creates_once (e e' : Env) (c c' : UserLogin) (db : DB) :
  find (by_email (l_email c)) (users db) = None ->
  l_email c <> "" ->
  find (by_id (new_ObjectId e 0)) (users db) = None ->
  l_email c' = l_email c ->
  exists (u : User) (db' : DB),
    login e c db = (inr (auth_response (new_ObjectId e 0, u)), db') /\
    users db' = (users db ++ [(new_ObjectId e 0, u)])%list /\
    u_email u = l_email c /\ u_password u = l_password c /\
    u_points u = 0 /\ u_category u = "Clásico" /\ u_pointsHistory u = [] /\
    login e' c' db' = (inr (auth_response (new_ObjectId e 0, u)), db').
Proof.
  intros Hunseen Hnonempty Hfresh Hsame.
  destruct (new_user e c) as [err|u] eqn:Hu.
  { unfold new_user in Hu. destruct (l_email c); [contradiction | discriminate]. }
  exists u; eexists.
  split; [exact (login_new_run e c db u Hunseen Hu Hfresh)|].
  destruct (new_user_fields e c u Hu) as (Hemail & _ & Hpw & Hp & Hc & Hh & _).
  repeat (split; [assumption || reflexivity|]).
  apply login_known_run. cbn [users with_users].
  rewrite Hsame, <- Hemail. apply find_by_email_last. now rewrite Hemail.
Qed.

Lemma login_creates_once_witness :
  exists (u : User) (db' : DB),
    login sample_env sample_login empty_db
      = (inr (auth_response (new_ObjectId sample_env 0, u)), db') /\
    u_email u = "ana.perez@campus.edu" /\ u_points u = 0 /\ u_category u = "Clásico" /\
    login sample_env (mkUserLogin "ana.perez@campus.edu" "another") db'
      = (inr (auth_response (new_ObjectId sample_env 0, u)), db').
Proof.
  destruct (login_creates_once sample_env sample_env sample_login
              (mkUserLogin "ana.perez@campus.edu" "another") empty_db)
    as (u & db' & Hrun & _ & Hemail & _ & Hp & Hc & _ & Hagain);
    [reflexivity | discriminate | reflexivity | reflexivity |].
  exists u, db'. split; [exact Hrun|].
  split; [exact Hemail|]. split; [exact Hp|]. split; [exact Hc | exact Hagain].
Defined.

(** [register] refuses an address that is taken with 400 "Usuario ya
    existe" and writes nothing; once it has succeeded for an address, every
    later [register] under that address is refused, while [login] under it
    answers with the user that was registered. *)
Theorem register_once (e e' : Env) (c c' : UserLogin) (db : DB) :
  (forall d, find (by_email (l_email c)) (users db) = Some d ->
     register e c db = (inl (HTTPException 400 "Usuario ya existe"), db)) /\
  (forall resp db', register e c db = (inr resp, db') ->
     l_email c' = l_email c ->
     register e' c' db' = (inl (HTTPException 400 "Usuario ya existe"), db') /\
     exists d, find (by_email (l_email c)) (users db') = Some d /\
               u_password (snd d) = l_password c /\
               login e' c' db' = (inr (auth_response d), db')).
Proof.
  assert (Htaken : forall e c db d,
             find (by_email (l_email c)) (users db) = Some d ->
             register e c db = (inl (HTTPException 400 "Usuario ya existe"), db)).
  { clear; intros e c db d Hfind. unfold register; run_handler. now rewrite Hfind. }
  split; [exact (Htaken e c db)|].
  intros resp db' Hrun Hsame.
  destruct (register_effect e c db) as [Hdb | (Hunseen & u & Hu & Hdb)].
  - exfalso. rewrite Hrun in Hdb; cbn [snd] in Hdb; subst db'.
    revert Hrun. unfold register, create_user; run_handler.
    destruct (find (by_email (l_email c)) (users db)); [discriminate|].
    cbv beta iota.
    destruct (new_user e c) as [err|u]; [discriminate|].
    cbv beta iota. cbn [users with_users].
    destruct (find _ _); [|discriminate].
    intros [= _ Hdb]. apply (f_equal users) in Hdb; cbn [users with_users] in Hdb.
    apply (f_equal (@List.length _)) in Hdb. rewrite length_app in Hdb; cbn in Hdb; lia.
  - rewrite Hrun in Hdb; cbn [snd] in Hdb; subst db'.
    destruct (new_user_fields e c u Hu) as (Hemail & _ & Hpw & _).
    assert (Hfind : find (by_email (l_email c))
                      (users db ++ [(new_ObjectId e 0, u)]) = Some (new_ObjectId e 0, u)).
    { rewrite <- Hemail. apply find_by_email_last. now rewrite Hemail. }
    split.
    + apply (Htaken e' c' _ (new_ObjectId e 0, u)). cbn [users with_users].
      now rewrite Hsame.
    + exists (new_ObjectId e 0, u). cbn [users with_users].
      split; [exact Hfind|]. split; [exact Hpw|].
      apply login_known_run. cbn [users with_users]. now rewrite Hsame.
Qed.

Lemma register_once_witness :
  register sample_env (mkUserLogin "ana@campus.edu" "x") sample_db
    = (inl (HTTPException 400 "Usuario ya existe"), sample_db) /\
  exists (resp : AuthResponse) (db' : DB),
    register sample_env sample_login empty_db = (inr resp, db') /\
    register sample_env sample_login db'
      = (inl (HTTPException 400 "Usuario ya existe"), db').
Proof.
  split.
  - apply (proj1 (register_once sample_env sample_env (mkUserLogin "ana@campus.edu" "x")
                   (mkUserLogin "ana@campus.edu" "x") sample_db)
             (mkObjectId sample_user_id, sample_user)).
    reflexivity.
  - destruct (register sample_env sample_login empty_db) as [[err|resp] db'] eqn:Hrun;
      [vm_compute in Hrun; discriminate|].
    exists resp, db'. split; [reflexivity|].
    apply (proj2 (register_once sample_env sample_env sample_login sample_login empty_db)
             resp db' Hrun eq_refl).
Defined.

(** With an empty e-mail address and no user stored under it, [login] and
    [register] raise [IndexError] out of the handler ([email[0]] on the empty
    string; no [HTTPException] is made of it) and write nothing; since that
    keeps a user with an empty address from ever being stored, this is what
    they do on every database the service reaches. *)
Theorem empty_email_raises (e : Env) (password : string) (db : DB) :
  (find (by_email "") (users db) = None ->
   login e (mkUserLogin "" password) db = (inl (PyError IndexError), db) /\
   register e (mkUserLogin "" password) db = (inl (PyError IndexError), db)) /\
  (reachable db ->
   login e (mkUserLogin "" password) db = (inl (PyError IndexError), db) /\
   register e (mkUserLogin "" password) db = (inl (PyError IndexError), db)).
Proof.
  assert (Hrun : find (by_email "") (users db) = None ->
                 login e (mkUserLogin "" password) db = (inl (PyError IndexError), db) /\
                 register e (mkUserLogin "" password) db = (inl (PyError IndexError), db)).
  { intros Hnone. unfold login, register, create_user; run_handler.
    cbn [l_email]. rewrite Hnone. split; reflexivity. }
  split; [exact Hrun|].
  intros Hreach; apply Hrun.
  assert (Hemails : Forall (fun d => u_email (snd d) <> "") (users db)).
  { apply (reachable_keeps (fun u => u_email u <> "")); [| | |exact Hreach].
    - intros e0 c u Hu. apply new_user_fields in Hu.
      destruct Hu as (-> & Hne & _); exact Hne.
    - intros; assumption.
    - intros; assumption. }
  destruct (find (by_email "") (users db)) as [d|] eqn:Hfind; [|reflexivity].
  apply find_some in Hfind; destruct Hfind as [Hin Hd].
  rewrite Forall_forall in Hemails. specialize (Hemails _ Hin).
  unfold by_email in Hd. apply String.eqb_eq in Hd. contradiction.
Qed.

Lemma empty_email_raises_witness :
  login sample_env (mkUserLogin "" "secret") sample_run
    = (inl (PyError IndexError), sample_run) /\
  register sample_env (mkUserLogin "" "secret") sample_db
    = (inl (PyError IndexError), sample_db).
Proof.
  split.
  - apply (proj2 (empty_email_raises sample_env "secret" sample_run)).
    apply sample_run_reachable.
  - apply (proj1 (empty_email_raises sample_env "secret" sample_db)).
    reflexivity.
Defined.

(** ** More on scanning *)

Lemma scan_run (e : Env) (request : ScanQRRequest) (db : DB)
    (container : ObjectId_t * Container) (user : ObjectId_t * User) :
  resolve_container (containers db) (sq_qrCode request) = Some container ->
  c_status (snd container) = "operational" ->
  lookup (users db) (sq_userId request) = Some user ->
  scan_qr e request db =
    (inr {| sr_success := true;
            sr_pointsEarned := randint 10 50 (getrandbits e 0);
            sr_newPoints := u_points (snd user) + randint 10 50 (getrandbits e 0);
            sr_newCategory :=
              get_category_from_points
                (u_points (snd user) + randint 10 50 (getrandbits e 0));
            sr_containerName := c_name (snd container);
            sr_kgRecycled :=
              (float_of_int (randint 10 50 (getrandbits e 0)) * one_tenth)%float |},
     with_scans
       (with_users db
          (update_first (by_id (fst user))
             (on_doc (scan_write e (snd user) (snd container))) (users db)))
       (scans db ++ [(new_ObjectId e 0, scan_record e request container)])%list).
Proof.
  intros Hc Hstatus Hu.
  destruct (scan_effect e request db)
    as [(err & Hrun) | (container' & user' & Hc' & _ & Hu' & Hrun)].
  - exfalso. revert Hrun.
    apply lookup_some in Hu; destruct Hu as [Huid Hu].
    unfold scan_qr; run_handler.
    rewrite find_container_run, Hc; cbv beta iota.
    rewrite Hstatus, String.eqb_refl; cbn [negb].
    rewrite Huid; cbv beta iota. rewrite Hu. discriminate.
  - rewrite Hc in Hc'; injection Hc' as <-.
    rewrite Hu in Hu'; injection Hu' as <-.
    exact Hrun.
Qed.

(** A scan that fails, for whatever reason, writes nothing.  Once the
    container is found and operational the user is looked up: a [userId]
    that is not a well-formed identifier is answered with 400 and the
    message of [InvalidId], a well-formed one of no user with 404 "Usuario no
    encontrado". *)
Theorem scan_failure (e : Env) (request : ScanQRRequest) (db : DB) :
  (forall err db', scan_qr e request db = (inl err, db') -> db' = db) /\
  (forall container,
     resolve_container (containers db) (sq_qrCode request) = Some container ->
     c_status (snd container) = "operational" ->
     (forall err, ObjectId (sq_userId request) = inl err ->
        scan_qr e request db =
          (inl (HTTPException 400 (str_error (InvalidId (sq_userId request)))), db)) /\
     (forall uid, ObjectId (sq_userId request) = inr uid ->
        find (by_id uid) (users db) = None ->
        scan_qr e request db = (inl (HTTPException 404 "Usuario no encontrado"), db))).
Proof.
  split.
  - intros err db' Hrun.
    destruct (scan_effect e request db) as [(err' & H) | (c & u & _ & _ & _ & H)];
      rewrite H in Hrun; [now injection Hrun | discriminate].
  - intros container Hc Hstatus.
    split.
    + intros err Herr. apply ObjectId_error in Herr as Hmsg; subst err.
      unfold scan_qr; run_handler.
      rewrite find_container_run, Hc; cbv beta iota.
      rewrite Hstatus, String.eqb_refl; cbn [negb].
      now rewrite Herr.
    + intros uid Huid Hnone.
      unfold scan_qr; run_handler.
      rewrite find_container_run, Hc; cbv beta iota.
      rewrite Hstatus, String.eqb_refl; cbn [negb].
      rewrite Huid; cbv beta iota. now rewrite Hnone.
Qed.

Lemma scan_failure_witness :
  scan_qr sample_env (mkScanQRRequest sample_reward_id sample_container_id) sample_db
    = (inl (HTTPException 404 "Usuario no encontrado"), sample_db) /\
  scan_qr sample_env (mkScanQRRequest "ana" "Contenedor A - Biblioteca") sample_db
    = (inl (HTTPException 400
         "'ana' is not a valid ObjectId, it must be a 12-byte input or a 24-character hex string"),
       sample_db).
Proof.
  split.
  - apply (proj2 (proj2 (scan_failure sample_env
                    (mkScanQRRequest sample_reward_id sample_container_id) sample_db)
                    (mkObjectId sample_container_id, sample_container) eq_refl eq_refl)
             (mkObjectId sample_reward_id)); reflexivity.
  - apply (proj1 (proj2 (scan_failure sample_env
                    (mkScanQRRequest "ana" "Contenedor A - Biblioteca") sample_db)
                    (mkObjectId sample_container_id, sample_container) eq_refl eq_refl)
             (PyError (InvalidId "ana"))); reflexivity.
Defined.

(** Scanning is not idempotent: the same request served twice awards points
    twice.  After the second scan the user's points are the old points plus
    both awards, the history has gained the two entries in order, and the
    scans collection has gained two records. *)
Theorem scan_twice (e1 e2 : Env) (request : ScanQRRequest) (db : DB)
    (container : ObjectId_t * Container) (user : ObjectId_t * User) :
  resolve_container (containers db) (sq_qrCode request) = Some container ->
  c_status (snd container) = "operational" ->
  lookup (users db) (sq_userId request) = Some user ->
  let first := randint 10 50 (getrandbits e1 0) in
  let second := randint 10 50 (getrandbits e2 0) in
  let db1 := snd (scan_qr e1 request db) in
  exists (resp : ScanResponse) (db2 : DB) (user2 : User),
    scan_qr e2 request db1 = (inr resp, db2) /\
    sr_pointsEarned resp = second /\
    sr_newPoints resp = u_points (snd user) + first + second /\
    lookup (users db2) (sq_userId request) = Some (fst user, user2) /\
    u_points user2 = u_points (snd user) + first + second /\
    map h_points (u_pointsHistory user2) =
      (map h_points (u_pointsHistory (snd user)) ++ [first; second])%list /\
    scans db2 = (scans db ++ [(new_ObjectId e1 0, scan_record e1 request container);
                              (new_ObjectId e2 0, scan_record e2 request container)])%list.
Proof.
  intros Hc Hstatus Hu first second db1.
  assert (Hdb1 : db1 = snd (scan_qr e1 request db)) by reflexivity.
  rewrite (scan_run e1 request db container user Hc Hstatus Hu) in Hdb1; cbn [snd] in Hdb1.
  destruct (lookup_some _ _ _ Hu) as [Huid Hfind].
  assert (Hu1 : lookup (users db1) (sq_userId request)
                = Some (fst user, scan_write e1 (snd user) (snd container) (snd user))).
  { rewrite Hdb1; unfold lookup; rewrite Huid; cbn [users with_users with_scans].
    now rewrite (find_update_first_hit _ _ _ _ (fun x => by_id_on_doc _ _ x) Hfind). }
  assert (Hc1 : resolve_container (containers db1) (sq_qrCode request) = Some container)
    by (rewrite Hdb1; exact Hc).
  pose proof (scan_run e2 request db1 container _ Hc1 Hstatus Hu1) as Hrun2.
  cbn [fst snd] in Hrun2.
  eexists; eexists; eexists.
  split; [exact Hrun2|].
  split; [reflexivity|].
  split; [unfold scan_write; cbn [u_points push_pointsHistory set_recycledKg set_category
                                    set_points sr_newPoints]; reflexivity|].
  split.
  { unfold lookup; rewrite Huid; cbn [users with_users with_scans].
    destruct (lookup_some _ _ _ Hu1) as [_ Hfind1]; cbn [fst] in Hfind1.
    rewrite (find_update_first_hit _ _ _ _ (fun x => by_id_on_doc _ _ x) Hfind1).
    unfold on_doc; cbn [fst snd]. reflexivity. }
  split; [reflexivity|].
  split.
  { unfold scan_write; cbn [u_pointsHistory push_pointsHistory set_recycledKg set_category
                              set_points].
    rewrite !map_app, <- app_assoc. reflexivity. }
  rewrite Hdb1; cbn [scans with_scans with_users]. now rewrite <- app_assoc.
Qed.

Lemma scan_twice_witness :
  exists (resp : ScanResponse) (db2 : DB),
    scan_qr sample_env (mkScanQRRequest sample_user_id sample_container_id)
            (snd (scan_qr sample_env (mkScanQRRequest sample_user_id sample_container_id)
                    sample_db))
      = (inr resp, db2) /\
    sr_newPoints resp = 330 /\
    List.length (scans db2) = 2%nat.
Proof.
  destruct (scan_twice sample_env sample_env
              (mkScanQRRequest sample_user_id sample_container_id) sample_db
              (mkObjectId sample_container_id, sample_container)
              (mkObjectId sample_user_id, sample_user) eq_refl eq_refl eq_refl)
    as (resp & db2 & user2 & Hrun & _ & Hpoints & _ & _ & _ & Hscans).
  exists resp, db2. split; [exact Hrun|]. split; [exact Hpoints|].
  rewrite Hscans; reflexivity.
Defined.

(** ** Reading single documents *)

Lemma every_error_400_status {A : Type} (body : M A) (db db' : DB) (err : exn) :
  (forall r db0, body db = (r, db0) -> db0 = db) ->
  every_error_400 body db = (inl err, db') ->
  db' = db /\ exists detail, err = HTTPException 400 detail.
Proof.
  intros Hread. unfold every_error_400, try_except, raise.
  destruct (body db) as [[e|a] db0] eqn:Hbody; [|discriminate].
  intros [= <- <-]. split; [exact (Hread _ _ eq_refl) | now eexists].
Qed.

Ltac read_only :=
  intros ? ?; run_handler;
  destruct (ObjectId _); [|destruct (find _ _)]; cbv beta iota;
  now intros [= _ <-].

(** [get_user], [get_container] and [get_reward] answer every failure with
    status 400 and write nothing.  This includes the missing document: the
    404 the body raises for a well-formed identifier of no document is
    caught by the handler's own [except Exception] and sent as a 400 whose
    detail is the text of the 404. *)
Theorem single_document_errors (id : string) (db : DB) :
  (forall err db',
     get_user id db = (inl err, db') \/ get_container id db = (inl err, db') \/
     get_reward id db = (inl err, db') ->
     db' = db /\ exists detail, err = HTTPException 400 detail) /\
  (forall oid, ObjectId id = inr oid ->
     (find (by_id oid) (users db) = None ->
      get_user id db = (inl (HTTPException 400 "404: Usuario no encontrado"), db)) /\
     (find (by_id oid) (containers db) = None ->
      get_container id db
        = (inl (HTTPException 400 "404: Contenedor no encontrado"), db)) /\
     (find (by_id oid) (rewards db) = None ->
      get_reward id db = (inl (HTTPException 400 "404: Recompensa no encontrada"), db))) /\
  (forall err, ObjectId id = inl err ->
     get_user id db = (inl (HTTPException 400 (str_error (InvalidId id))), db) /\
     get_container id db = (inl (HTTPException 400 (str_error (InvalidId id))), db) /\
     get_reward id db = (inl (HTTPException 400 (str_error (InvalidId id))), db)).
Proof.
  split; [|split].
  - intros err db' [H | [H | H]]; revert H;
      apply every_error_400_status.
    all: read_only.
  - intros oid Hoid.
    unfold get_user, get_container, get_reward, every_error_400; run_handler.
    rewrite Hoid; cbv beta iota.
    repeat split; intros ->; reflexivity.
  - intros err Herr. apply ObjectId_error in Herr as Hmsg; subst err.
    unfold get_user, get_container, get_reward, every_error_400; run_handler.
    rewrite Herr. repeat split.
Qed.

Lemma single_document_errors_witness :
  get_user sample_reward_id sample_db
    = (inl (HTTPException 400 "404: Usuario no encontrado"), sample_db) /\
  get_reward "ana" sample_db
    = (inl (HTTPException 400
         "'ana' is not a valid ObjectId, it must be a 12-byte input or a 24-character hex string"),
       sample_db).
Proof.
  split.
  - apply (proj1 (proj1 (proj2 (single_document_errors sample_reward_id sample_db))
                    (mkObjectId sample_reward_id) eq_refl)).
    reflexivity.
  - apply (proj2 (proj2 (proj2 (proj2 (single_document_errors "ana" sample_db))
                    (PyError (InvalidId "ana")) eq_refl))).
Defined.

Lemma find_by_id_unique {A : Type} (l : collection A) (d : ObjectId_t * A) :
  NoDup (map fst l) -> In d l -> find (by_id (fst d)) l = Some d.
Proof.
  induction l as [|x l IH]; simpl; [contradiction|].
  intros Hnodup Hin. inversion Hnodup as [|? ? Hx Hl]; subst.
  destruct (by_id (fst d) x) eqn:Hsel.
  - destruct Hin as [-> | Hin]; [reflexivity|].
    apply ObjectId_eqb_eq in Hsel.
    exfalso; apply Hx. rewrite Hsel. now apply in_map.
  - destruct Hin as [-> | Hin].
    + unfold by_id in Hsel. now rewrite ObjectId_eqb_refl in Hsel.
    + now apply IH.
Qed.

Lemma in_firstn {A : Type} (n : nat) (l : list A) (x : A) :
  In x (firstn n l) -> In x l.
Proof.
  intros Hin. rewrite <- (firstn_skipn n l). apply in_or_app. now left.
Qed.

Lemma in_listing {A : Type} (sel : ObjectId_t * A -> bool) (l : collection A)
    (item : string * A) :
  In item (map as_json (firstn 100 (filter sel l))) ->
  exists d, In d l /\ item = as_json d.
Proof.
  intros Hin. apply in_map_iff in Hin; destruct Hin as (d & <- & Hin).
  exists d; split; [|reflexivity].
  apply in_firstn in Hin. now apply filter_In in Hin.
Qed.

Lemma get_by_id_run {A : Type} (l : collection A) (d : ObjectId_t * A) :
  NoDup (map fst l) -> Forall canonical (map fst l) -> In d l ->
  ObjectId (fst (as_json d)) = inr (fst d) /\ find (by_id (fst d)) l = Some d.
Proof.
  intros Hnodup Hcanon Hin. split; [|now apply find_by_id_unique].
  rewrite Forall_forall in Hcanon. apply (Hcanon (fst d)). now apply in_map.
Qed.

(** What the listings return can be fetched one by one: when the stored
    identifiers are distinct and in canonical text (as the identifiers the
    driver generates are), every item of a [get_rewards] listing, whatever
    the category asked for, is returned unchanged by [get_reward] on its
    ["id"], and every item of [get_containers] by [get_container]. *)
Theorem listed_documents_can_be_fetched (db : DB) :
  (NoDup (map fst (rewards db)) -> Forall canonical (map fst (rewards db)) ->
   forall category listing db' item,
     get_rewards category db = (inr listing, db') -> In item listing ->
     get_reward (fst item) db = (inr item, db)) /\
  (NoDup (map fst (containers db)) -> Forall canonical (map fst (containers db)) ->
   forall listing db' item,
     get_containers db = (inr listing, db') -> In item listing ->
     get_container (fst item) db = (inr item, db)).
Proof.
  split.
  - intros Hnodup Hcanon category listing db' item Hrun Hin.
    unfold get_rewards in Hrun; revert Hrun; run_handler; intros [= <- _].
    apply in_listing in Hin; destruct Hin as (d & Hd & ->).
    destruct (get_by_id_run _ d Hnodup Hcanon Hd) as [Hoid Hfind].
    unfold get_reward, every_error_400; run_handler. now rewrite Hoid, Hfind.
  - intros Hnodup Hcanon listing db' item Hrun Hin.
    unfold get_containers in Hrun; revert Hrun; run_handler; intros [= <- _].
    rewrite <- (filter_everything (containers db)) in Hin.
    apply in_listing in Hin; destruct Hin as (d & Hd & ->).
    destruct (get_by_id_run _ d Hnodup Hcanon Hd) as [Hoid Hfind].
    unfold get_container, every_error_400; run_handler. now rewrite Hoid, Hfind.
Qed.

Lemma listed_documents_can_be_fetched_witness :
  get_reward sample_oro_reward_id sample_db
    = (inr (sample_oro_reward_id, sample_oro_reward), sample_db) /\
  get_container sample_closed_container_id sample_db
    = (inr (sample_closed_container_id, sample_closed_container), sample_db).
Proof.
  destruct (listed_documents_can_be_fetched sample_db) as [Hrewards Hcontainers].
  split.
  - apply (Hrewards ltac:(repeat constructor; simpl; intuition discriminate)
                    ltac:(repeat constructor)
                    (Some "Oro") _ sample_db (sample_oro_reward_id, sample_oro_reward)
                    eq_refl).
    simpl; tauto.
  - apply (Hcontainers ltac:(repeat constructor; simpl; intuition discriminate)
                       ltac:(repeat constructor)
                       _ sample_db (sample_closed_container_id, sample_closed_container)
                       eq_refl).
    simpl; tauto.
Defined.

(** A user created by a first login can be read back: [get_user] on the
    identifier the login answered with returns the profile of the new user,
    with 0 points, category "Clásico", an empty history, and Plata (100
    points away, progress 0) as the next category.  The identifier the
    driver generates is taken to be unused and in canonical text. *)
Theorem login_then_get_user (e : Env) (c : UserLogin) (db : DB) :
  find (by_email (l_email c)) (users db) = None ->
  l_email c <> "" ->
  find (by_id (new_ObjectId e 0)) (users db) = None ->
  canonical (new_ObjectId e 0) ->
  exists (resp : AuthResponse) (db' : DB) (profile : UserProfile),
    login e c db = (inr resp, db') /\
    get_user (us_id (a_user resp)) db' = (inr profile, db') /\
    p_id profile = us_id (a_user resp) /\
    p_email profile = l_email c /\
    p_points profile = 0 /\
    p_category profile = "Clásico" /\
    p_pointsHistory profile = [] /\
    p_nextCategory profile =
      Some {| nc_name := "Plata"; nc_pointsNeeded := 100; nc_currentPoints := 0;
              nc_totalPoints := 100; nc_progress := 0%float |}.
Proof.
  intros Hunseen Hnonempty Hfresh Hcanon.
  destruct (new_user e c) as [err|u] eqn:Hu.
  { unfold new_user in Hu. destruct (l_email c); [contradiction | discriminate]. }
  destruct (new_user_fields e c u Hu) as (Hemail & _ & _ & Hp & Hc & Hh & _).
  eexists; eexists; exists (user_profile (new_ObjectId e 0, u)).
  split; [exact (login_new_run e c db u Hunseen Hu Hfresh)|].
  split.
  { unfold get_user, every_error_400; run_handler.
    cbn [auth_response a_user us_id fst users with_users].
    rewrite Hcanon; cbv beta iota.
    now rewrite (find_by_id_last _ _ u Hfresh). }
  unfold user_profile; cbn [p_id p_email p_points p_category p_pointsHistory
                             p_nextCategory fst snd].
  rewrite Hp. repeat split; assumption.
Qed.

Lemma login_then_get_user_witness :
  exists (resp : AuthResponse) (db' : DB) (profile : UserProfile),
    login sample_env sample_login empty_db = (inr resp, db') /\
    get_user (us_id (a_user resp)) db' = (inr profile, db') /\
    p_id profile = "000000000000000000001000" /\
    p_points profile = 0.
Proof.
  destruct (login_then_get_user sample_env sample_login empty_db)
    as (resp & db' & profile & Hlogin & Hget & Hid & _ & Hp & _);
    [reflexivity | discriminate | reflexivity | reflexivity |].
  exists resp, db', profile.
  split; [exact Hlogin|]. split; [exact Hget|]. split; [|exact Hp].
  rewrite Hid.
  assert (H : fst (login sample_env sample_login empty_db) = inr resp) by now rewrite Hlogin.
  vm_compute in H. injection H as <-. reflexivity.
Defined.

(** ** Listing rewards by tier *)

Lemma tier_leb_le (c d : string) : tier_leb c d = true <-> tier_le c d.
Proof.
  unfold tier_leb, tier_le.
  destruct (tier_index c), (tier_index d); try (split; [discriminate | contradiction]).
  apply Nat.leb_le.
Qed.

(** Membership in a prefix of a list, by the position of the first
    occurrence. *)
Lemma contains_prefix (x : string) (l : list string) :
  forall i : nat,
    contains x (firstn (i + 1) l) =
    match index x l with
    | Some j => (j <=? i)%nat
    | None => false
    end.
Proof.
  unfold contains.
  induction l as [|y l IH]; intros i.
  - rewrite firstn_nil; reflexivity.
  - rewrite Nat.add_1_r; cbn [firstn existsb index].
    rewrite (String.eqb_sym x y).
    destruct (String.eqb y x); [reflexivity|]. cbn [orb].
    destruct i as [|i].
    + rewrite firstn_O; cbn [existsb].
      destruct (index x l); reflexivity.
    + pose proof (IH i) as H. rewrite Nat.add_1_r in H. rewrite H.
      destruct (index x l); reflexivity.
Qed.

Lemma matches_query_tier (category : string) (i : nat) (d : ObjectId_t * Reward) :
  tier_index category = Some i ->
  matches_query (rewards_query (Some category)) d = tier_leb (r_category (snd d)) category.
Proof.
  intros Hi. unfold rewards_query.
  destruct category as [|a s]; [discriminate|].
  assert (Hin : contains (String a s) cat_order = true).
  { unfold contains. apply existsb_exists. exists (String a s).
    split; [|apply String.eqb_refl].
    clear - Hi. unfold tier_index in Hi. revert i Hi.
    induction cat_order as [|y l IH]; intros i; cbn [index]; [discriminate|].
    destruct (String.eqb y (String a s)) eqn:Hy.
    - apply String.eqb_eq in Hy; subst y. now left.
    - destruct (index (String a s) l); [|discriminate].
      intros _. right. now apply (IH n). }
  rewrite Hin. unfold tier_index in Hi; rewrite Hi.
  unfold matches_query, tier_leb, tier_index. rewrite Hi.
  apply contains_prefix.
Qed.

Lemma get_rewards_run (category : option string) (db : DB) :
  get_rewards category db =
    (inr (map as_json
            (firstn 100 (filter (matches_query (rewards_query category)) (rewards db)))), db).
Proof. reflexivity. Qed.

Ltac listing_of H :=
  match type of H with
  | (inr ?l, _) = (inr ?listing, _) =>
      let Hl := fresh in
      assert (Hl : listing = l) by congruence; subst listing; clear H
  end.

(** For a category of the ladder [get_rewards] lists, in stored order and up
    to the first hundred, exactly the rewards whose required category is on
    the ladder at or below the category asked for; rewards whose category is
    not on the ladder are never listed. *)
Theorem get_rewards_by_tier (category : string) (db : DB) :
  In category cat_order ->
  get_rewards (Some category) db =
    (inr (map as_json
            (firstn 100
               (filter (fun d => tier_leb (r_category (snd d)) category) (rewards db)))),
     db) /\
  (forall listing db' item,
     get_rewards (Some category) db = (inr listing, db') -> In item listing ->
     tier_le (r_category (snd item)) category) /\
  ((List.length (rewards db) <= 100)%nat ->
   forall listing db' d,
     get_rewards (Some category) db = (inr listing, db') ->
     In d (rewards db) -> tier_le (r_category (snd d)) category ->
     In (as_json d) listing).
Proof.
  intros Hin.
  assert (Hi : exists i, tier_index category = Some i).
  { repeat (destruct Hin as [<- | Hin]); try contradiction; eexists; reflexivity. }
  destruct Hi as [i Hi].
  assert (Hrun : get_rewards (Some category) db =
            (inr (map as_json
                    (firstn 100
                       (filter (fun d => tier_leb (r_category (snd d)) category)
                          (rewards db)))), db)).
  { rewrite get_rewards_run.
    rewrite (filter_ext _ (fun d => tier_leb (r_category (snd d)) category));
      [reflexivity|].
    intros d. now apply (matches_query_tier category i). }
  split; [exact Hrun|]. rewrite Hrun.
  split.
  - intros listing db' item Heq Hitem; listing_of Heq.
    apply in_map_iff in Hitem; destruct Hitem as (d & <- & Hd).
    apply in_firstn, filter_In in Hd. now apply tier_leb_le.
  - intros Hlen listing db' d Heq Hd Hle; listing_of Heq.
    apply in_map. rewrite firstn_all2.
    + apply filter_In; split; [exact Hd | now apply tier_leb_le].
    + etransitivity; [apply filter_length_le | exact Hlen].
Qed.

Lemma get_rewards_by_tier_witness :
  get_rewards (Some "Plata") sample_db
    = (inr [(sample_reward_id, sample_reward)], sample_db) /\
  tier_le (r_category sample_reward) "Plata".
Proof.
  destruct (get_rewards_by_tier "Plata" sample_db) as (Hrun & Hlisted & _);
    [simpl; tauto|].
  split; [rewrite Hrun; reflexivity|].
  apply (Hlisted _ sample_db (sample_reward_id, sample_reward) eq_refl).
  simpl; tauto.
Defined.

(** What a tier can see, every higher tier can see: with at most a hundred
    rewards stored, each item listed for a category of the ladder is listed
    for every category at or above it. *)
Theorem get_rewards_grows_with_tier (lower higher : string) (db : DB) :
  tier_le lower higher ->
  (List.length (rewards db) <= 100)%nat ->
  forall listing listing' db' db'' item,
    get_rewards (Some lower) db = (inr listing, db') ->
    get_rewards (Some higher) db = (inr listing', db'') ->
    In item listing -> In item listing'.
Proof.
  intros Hle Hlen listing listing' db' db'' item.
  assert (Hi : exists i j, tier_index lower = Some i /\ tier_index higher = Some j /\
                           (i <= j)%nat).
  { unfold tier_le in Hle. destruct (tier_index lower) as [i|]; [|contradiction].
    destruct (tier_index higher) as [j|]; [|contradiction]. now exists i, j. }
  destruct Hi as (i & j & Hi & Hj & Hij).
  rewrite !get_rewards_run. intros Heq Heq' Hitem; listing_of Heq; listing_of Heq'.
  apply in_map_iff in Hitem; destruct Hitem as (d & <- & Hd).
  apply in_map.
  apply in_firstn, filter_In in Hd; destruct Hd as [Hd Hsel].
  rewrite firstn_all2; [|etransitivity; [apply filter_length_le | exact Hlen]].
  apply filter_In; split; [exact Hd|].
  rewrite (matches_query_tier lower i d Hi) in Hsel.
  rewrite (matches_query_tier higher j d Hj).
  unfold tier_leb in *. rewrite Hi in Hsel. rewrite Hj.
  destruct (tier_index (r_category (snd d))) as [k|]; [|discriminate].
  apply Nat.leb_le in Hsel. apply Nat.leb_le. lia.
Qed.

Lemma get_rewards_grows_with_tier_witness :
  In (sample_reward_id, sample_reward)
     (match fst (get_rewards (Some "Black") sample_db) with
      | inr listing => listing
      | inl _ => []
      end).
Proof.
  apply (get_rewards_grows_with_tier "Plata" "Black" sample_db
           ltac:(vm_compute; repeat constructor) ltac:(vm_compute; repeat constructor)
           [(sample_reward_id, sample_reward)] _ sample_db sample_db
           (sample_reward_id, sample_reward) eq_refl eq_refl).
  simpl; tauto.
Defined.

(** ** Thresholds and tiers *)

(** The threshold of every tier of the ladder is classified as that tier;
    a category that is not on the ladder has requirement 0 (the default of
    the dictionary lookup). *)
Theorem category_requirements_round_trip (category : string) :
  (In category cat_order ->
   get_category_from_points (get_category_requirements category) = category) /\
  (~ In category cat_order -> get_category_requirements category = 0).
Proof.
  split.
  - intros Hin. repeat (destruct Hin as [<- | Hin]); try contradiction; reflexivity.
  - intros Hout. unfold get_category_requirements, categories, dict_get.
    repeat match goal with
           | |- context [String.eqb ?k category] =>
               destruct (String.eqb_spec k category) as [<- | _];
               [exfalso; apply Hout; simpl; tauto|]
           end.
    reflexivity.
Qed.

Lemma category_requirements_round_trip_witness :
  get_category_from_points (get_category_requirements "Diamante") = "Diamante" /\
  get_category_requirements "Bronce" = 0.
Proof.
  split.
  - apply (proj1 (category_requirements_round_trip "Diamante")). simpl; tauto.
  - apply (proj2 (category_requirements_round_trip "Bronce")).
    simpl; intuition discriminate.
Defined.

(** What [get_next_category_info] announces is what
    [get_category_from_points] delivers: earning exactly [pointsNeeded] more
    points puts the user in the category named, earning fewer leaves the
    category as it is; [pointsNeeded] is positive and adds up with
    [currentPoints] to [totalPoints]; and no next category is announced
    exactly when the category is "Black". *)
Theorem next_category_is_reached (p : Z) :
  (forall info, get_next_category_info p = Some info ->
     0 < nc_pointsNeeded info /\
     nc_currentPoints info + nc_pointsNeeded info = nc_totalPoints info /\
     get_category_from_points (p + nc_pointsNeeded info) = nc_name info /\
     (forall k, 0 <= k < nc_pointsNeeded info ->
        get_category_from_points (p + k) = get_category_from_points p)) /\
  (get_next_category_info p = None <-> get_category_from_points p = "Black").
Proof.
  unfold get_next_category_info, thresholds, next_category_loop.
  split.
  - intros info.
    repeat match goal with
           | |- context [?a <? ?b] => destruct (Z.ltb_spec a b)
           end; try discriminate;
      intros Heq; apply (f_equal (fun o => match o with Some i => i | None => info end)) in Heq;
      subst info; unfold nc_pointsNeeded, nc_currentPoints, nc_totalPoints, nc_name;
      (split; [lia|]); (split; [lia|]);
      (split; [|intros k Hk]); unfold get_category_from_points; split_geb;
      try lia; reflexivity.
  - unfold get_category_from_points.
    repeat match goal with
           | |- context [?a <? ?b] => destruct (Z.ltb_spec a b)
           end; split_geb; try lia; split; try discriminate; reflexivity.
Qed.

Lemma next_category_is_reached_witness :
  get_category_from_points (450 + 150) = "Diamante" /\
  get_category_from_points (450 + 149) = get_category_from_points 450.
Proof.
  destruct (proj1 (next_category_is_reached 450)
              {| nc_name := "Diamante"; nc_pointsNeeded := 150; nc_currentPoints := 450;
                 nc_totalPoints := 600; nc_progress := 75%float |} eq_refl)
    as (_ & _ & Hreach & Hstay).
  split; [exact Hreach|]. apply (Hstay 149). cbn; lia.
Defined.
